(** * Agent-Orange: [data/chromadb/init_embedded.py]

    A shallow embedding of [initialize_chromadb], the script that opens an
    embedded ChromaDB client, creates a test collection, adds one document
    and runs one query, together with the properties of it that the
    repository's specification states.

    The script is glue around the [chromadb] package and writes to
    standard output.  Neither is part of the repository, so both appear
    here as an interface ([ChromaLib]): a type of states, one operation per
    API call the script makes, and how a [print] ends, each of which may
    return or raise.  What the script itself does (which calls, with which
    arguments, in which order, under which [try]) is fixed by the
    embedding; what the package and the output stream do is quantified
    over, and where a property also depends on them, the assumption made
    is an explicit law of the interface or a hypothesis on the run. *)

From stdpp Require Import gmap strings list pretty.
From Stdlib Require Import ZArith Lia Ascii.

Set Warnings "-register-all".
#[local] Open Scope Z_scope.
#[local] Open Scope string_scope.
#[local] Open Scope list_scope.

(** ** Python values and exceptions *)

(** The values that cross the boundary between the script and the library:
    the query response is an ordinary Python object, which the script
    subscripts and measures with [len].  [str] is kept as its UTF-8
    encoding. *)
Inductive pyval :=
| PyNone
| PyBool (b : bool)
| PyInt (z : Z)
| PyStr (s : string)
| PyList (l : list pyval)
| PyDict (m : gmap string pyval).

(** A raised exception: its class name, what [str(e)] gives, and whether it
    is an instance of [Exception] (as opposed to a bare [BaseException]
    such as [KeyboardInterrupt], which [except Exception] lets through). *)
Record exn := Exn {
  exn_class : string;
  exn_str : string;
  exn_is_Exception : bool
}.

(** The result of evaluating something that may raise. *)
Inductive outcome (A : Type) :=
| Ret (a : A)
| Raise (e : exn).
Arguments Ret {A} a.
Arguments Raise {A} e.

Definition py_type_name (v : pyval) : string :=
  match v with
  | PyNone => "NoneType"
  | PyBool _ => "bool"
  | PyInt _ => "int"
  | PyStr _ => "str"
  | PyList _ => "list"
  | PyDict _ => "dict"
  end.

(** [repr] of a hashable key, as it shows in a [KeyError].  For [str] this
    is the quoted text, exact for keys without quotes, backslashes or
    control characters. *)
Definition py_repr_key (k : pyval) : string :=
  match k with
  | PyNone => "None"
  | PyBool true => "True"
  | PyBool false => "False"
  | PyInt z => pretty z
  | PyStr s => "'" +:+ s +:+ "'"
  | PyList _ | PyDict _ => EmptyString
  end.

Definition KeyError (k : pyval) : exn := Exn "KeyError" (py_repr_key k) true.
Definition IndexError (msg : string) : exn := Exn "IndexError" msg true.
Definition TypeError (msg : string) : exn := Exn "TypeError" msg true.
Definition ValueError (msg : string) : exn := Exn "ValueError" msg true.
Definition PermissionError (path : string) : exn :=
  Exn "PermissionError" ("[Errno 13] Permission denied: '" +:+ path +:+ "'") true.

(** [bool] is a subclass of [int]: both are accepted as sequence indices. *)
Definition py_index (k : pyval) : option Z :=
  match k with
  | PyInt z => Some z
  | PyBool b => Some (if b then 1 else 0)
  | _ => None
  end.

(** Sequence indexing with Python's negative indices. *)
Definition seq_index {A} (l : list A) (i : Z) : option A :=
  let n := Z.of_nat (length l) in
  if decide (0 <= i < n) then l !! Z.to_nat i
  else if decide (- n <= i < 0) then l !! Z.to_nat (n + i)
  else None.

(** The code points of a UTF-8 encoded [str]: a byte of the form
    [10xxxxxx] continues the code point begun before it. *)
Definition is_continuation (a : ascii) : bool :=
  let n := Z.of_nat (nat_of_ascii a) in
  bool_decide (128 <= n < 192).

Fixpoint codepoints_go (s : string) : string * list string :=
  match s with
  | EmptyString => (EmptyString, [])
  | String a rest =>
      let '(pending, acc) := codepoints_go rest in
      if is_continuation a then (String a pending, acc)
      else (EmptyString, String a pending :: acc)
  end.

Definition codepoints (s : string) : list string := (codepoints_go s).2.

(** [obj[key]] *)
Definition py_getitem (obj key : pyval) : outcome pyval :=
  match obj with
  | PyDict m =>
      match key with
      | PyStr k =>
          match m !! k with
          | Some v => Ret v
          | None => Raise (KeyError key)
          end
      | PyList _ | PyDict _ =>
          Raise (TypeError ("unhashable type: '" +:+ py_type_name key +:+ "'"))
      | _ => Raise (KeyError key)
      end
  | PyList l =>
      match py_index key with
      | Some i =>
          match seq_index l i with
          | Some v => Ret v
          | None => Raise (IndexError "list index out of range")
          end
      | None =>
          Raise (TypeError ("list indices must be integers or slices, not "
                            +:+ py_type_name key))
      end
  | PyStr s =>
      match py_index key with
      | Some i =>
          match seq_index (codepoints s) i with
          | Some c => Ret (PyStr c)
          | None => Raise (IndexError "string index out of range")
          end
      | None =>
          (* the wording of CPython 3.11 and later; earlier versions stop
             after "integers" *)
          Raise (TypeError ("string indices must be integers, not '"
                            +:+ py_type_name key +:+ "'"))
      end
  | PyNone | PyBool _ | PyInt _ =>
      Raise (TypeError ("'" +:+ py_type_name obj +:+ "' object is not subscriptable"))
  end.

(** [len(obj)] *)
Definition py_len (obj : pyval) : outcome Z :=
  match obj with
  | PyList l => Ret (Z.of_nat (length l))
  | PyDict m => Ret (Z.of_nat (size m))
  | PyStr s => Ret (Z.of_nat (length (codepoints s)))
  | PyNone | PyBool _ | PyInt _ =>
      Raise (TypeError ("object of type '" +:+ py_type_name obj +:+ "' has no len()"))
  end.

(** ** The chromadb package and standard output, as the script sees them *)

(** The API the script consumes.  [world] is everything a call can read or
    change: the persistence directory on disk and the state the package
    keeps in the process.  Every operation takes the keyword arguments the
    script passes and either returns or raises.

    [print_line] is how [print(line)] ends on the standard output of the
    process: it returns, or it raises ([UnicodeEncodeError] where the
    stream cannot encode the line, [OSError] where the write fails).
    Printing leaves the state of the package as it is. *)
Record ChromaLib := {
  world : Type;
  settings_t : Type;
  client_t : Type;
  collection_t : Type;
  (* chromadb.config.Settings(chroma_db_impl=, persist_directory=,
     anonymized_telemetry=) *)
  lib_Settings : string → string → bool → world → outcome settings_t * world;
  (* chromadb.Client(settings) *)
  lib_Client : settings_t → world → outcome client_t * world;
  (* client.create_collection(name=, metadata=) *)
  lib_create_collection :
    client_t → string → gmap string string → world →
    outcome collection_t * world;
  (* collection.add(documents=, metadatas=, ids=) *)
  lib_add :
    collection_t → list string → list (gmap string string) → list string →
    world → outcome unit * world;
  (* collection.query(query_texts=, n_results=) *)
  lib_query : collection_t → list string → Z → world → outcome pyval * world;
  (* print(line) *)
  print_line : world → string → outcome unit
}.

(** What a run does that can be observed from outside: the library calls
    it makes, each with its arguments and with how it ended, the lines it
    prints, and the prints that raised instead.  The log is ghost state;
    the script does not read it. *)
Inductive event (L : ChromaLib) :=
| CallSettings (chroma_db_impl persist_directory : string)
    (anonymized_telemetry : bool) (o : outcome (settings_t L))
| CallClient (s : settings_t L) (o : outcome (client_t L))
| CallCreateCollection (c : client_t L) (name : string)
    (metadata : gmap string string) (o : outcome (collection_t L))
| CallAdd (h : collection_t L) (documents : list string)
    (metadatas : list (gmap string string)) (ids : list string)
    (o : outcome unit)
| CallQuery (h : collection_t L) (query_texts : list string) (n_results : Z)
    (o : outcome pyval)
| Printed (line : string)
| PrintRaised (line : string) (e : exn).
Arguments CallSettings {L}.
Arguments CallClient {L}.
Arguments CallCreateCollection {L}.
Arguments CallAdd {L}.
Arguments CallQuery {L}.
Arguments Printed {L}.
Arguments PrintRaised {L}.

(** ** Computations that call the library, print and may raise *)

Module Py.

Definition M (L : ChromaLib) (A : Type) : Type :=
  world L → outcome A * world L * list (event L).

Section Monad.
Context {L : ChromaLib}.

Definition ret {A} (a : A) : M L A := λ w, (Ret a, w, []).

Definition raise {A} (e : exn) : M L A := λ w, (Raise e, w, []).

(** Sequencing: a raise in the first part skips the second. *)
Definition bind {A B} (m : M L A) (k : A → M L B) : M L B :=
  λ w,
    let '(o, w1, t1) := m w in
    match o with
    | Ret a => let '(o2, w2, t2) := k a w1 in (o2, w2, t1 ++ t2)
    | Raise e => (Raise e, w1, t1)
    end.

(** A built-in operation on values: no effect beyond its result. *)
Definition eval {A} (o : outcome A) : M L A := λ w, (o, w, []).

(** A library call: run it on the current state and log it. *)
Definition call {A} (f : world L → outcome A * world L)
    (log : outcome A → event L) : M L A :=
  λ w, let '(o, w1) := f w in (o, w1, [log o]).

(** [print(line)]: the line is out when the call returns; when it raises,
    the error goes the way of any other. *)
Definition print (line : string) : M L unit :=
  λ w,
    match print_line L w line with
    | Ret u => (Ret u, w, [Printed line])
    | Raise e => (Raise e, w, [PrintRaised line e])
    end.

(** [try: body  except Exception as e: handler e].  Only instances of
    [Exception] are caught; what the body did before raising stays done. *)
Definition try_except {A} (body : M L A) (handler : exn → M L A) : M L A :=
  λ w,
    let '(o, w1, t1) := body w in
    match o with
    | Ret a => (Ret a, w1, t1)
    | Raise e =>
        if exn_is_Exception e
        then let '(o2, w2, t2) := handler e w1 in (o2, w2, t1 ++ t2)
        else (Raise e, w1, t1)
    end.

End Monad.

Declare Scope py_scope.
Delimit Scope py_scope with py.
Notation "x <- m ;; k" := (bind m (λ x, k))
  (at level 100, m at next level, right associativity) : py_scope.
Notation "m ;; k" := (bind m (λ _, k))
  (at level 100, right associativity) : py_scope.

End Py.
Import Py.
#[local] Open Scope py_scope.

(** ** The script *)

Section Script.
Context {L : ChromaLib}.

(** [os.path.dirname(os.path.abspath(__file__))]: the directory the script
    file is in. *)
Variable script_dir : string.

Definition Settings (chroma_db_impl persist_directory : string)
    (anonymized_telemetry : bool) : M L (settings_t L) :=
  call (lib_Settings L chroma_db_impl persist_directory anonymized_telemetry)
       (CallSettings chroma_db_impl persist_directory anonymized_telemetry).

Definition Client (s : settings_t L) : M L (client_t L) :=
  call (lib_Client L s) (CallClient s).

Definition create_collection (c : client_t L) (name : string)
    (metadata : gmap string string) : M L (collection_t L) :=
  call (lib_create_collection L c name metadata)
       (CallCreateCollection c name metadata).

Definition add (h : collection_t L) (documents : list string)
    (metadatas : list (gmap string string)) (ids : list string) : M L unit :=
  call (lib_add L h documents metadatas ids) (CallAdd h documents metadatas ids).

Definition query (h : collection_t L) (query_texts : list string)
    (n_results : Z) : M L pyval :=
  call (lib_query L h query_texts n_results) (CallQuery h query_texts n_results).

(** [len(results['documents'][0])] *)
Definition first_group_len (results : pyval) : outcome Z :=
  match py_getitem results (PyStr "documents") with
  | Ret documents =>
      match py_getitem documents (PyInt 0) with
      | Ret group => py_len group
      | Raise e => Raise e
      end
  | Raise e => Raise e
  end.

(** [initialize_chromadb()], statement by statement.  The client is built
    before the [try]; the three collection operations, the two success
    lines and [return True] are its body. *)
Definition initialize_chromadb : M L bool :=
  let persist_dir := script_dir +:+ "/persist" in
  settings <- Settings "duckdb+parquet" persist_dir false ;;
  client <- Client settings ;;
  try_except
    (collection <-
       create_collection client "test_offline_collection"
         {[ "description" := "Test collection for offline verification" ]} ;;
     add collection
       ["This is a test document for offline ChromaDB"]
       [ {[ "source" := "offline_test" ]} ]
       ["test_doc_1"] ;;
     results <- query collection ["test document"] 1 ;;
     print "✅ ChromaDB offline initialization successful" ;;
     n <- eval (first_group_len results) ;;
     print ("✅ Test collection created with " +:+ pretty n +:+ " documents") ;;
     ret true)
    (λ e,
       print ("❌ ChromaDB initialization failed: " +:+ exn_str e) ;;
       ret false).

End Script.

(** ** Observing a run *)

Section Observations.
Context {L : ChromaLib}.

(** The three components of what a computation yields. *)
Definition result {A} (r : outcome A * world L * list (event L)) : outcome A := r.1.1.
Definition final {A} (r : outcome A * world L * list (event L)) : world L := r.1.2.
Definition trace {A} (r : outcome A * world L * list (event L)) : list (event L) := r.2.

(** Standard output: the lines whose [print] returned, oldest first. *)
Definition stdout (t : list (event L)) : list string :=
  omap (λ ev, match ev with Printed line => Some line | _ => None end) t.

Definition is_call (ev : event L) : bool :=
  match ev with
  | Printed _ | PrintRaised _ _ => false
  | _ => true
  end.

(** The operations on a collection, as opposed to the two constructors
    that run before the [try]. *)
Definition is_collection_call (ev : event L) : bool :=
  match ev with
  | CallCreateCollection _ _ _ _ | CallAdd _ _ _ _ _ | CallQuery _ _ _ _ => true
  | _ => false
  end.


Definition raised_of {A} (o : outcome A) : option exn :=
  match o with
  | Ret _ => None
  | Raise e => Some e
  end.

(** The exception a logged call ended with, if it raised. *)
Definition call_raised (ev : event L) : option exn :=
  match ev with
  | CallSettings _ _ _ o => raised_of o
  | CallClient _ o => raised_of o
  | CallCreateCollection _ _ _ o => raised_of o
  | CallAdd _ _ _ _ o => raised_of o
  | CallQuery _ _ _ o => raised_of o
  | Printed _ | PrintRaised _ _ => None
  end.

(** The exception a logged [print] ended with, if it raised. *)
Definition print_raised (ev : event L) : option exn :=
  match ev with
  | PrintRaised _ e => Some e
  | _ => None
  end.

(** No library call follows one that raised. *)
Fixpoint quiet_after_raise (t : list (event L)) : bool :=
  match t with
  | [] => true
  | ev :: rest =>
      match call_raised ev with
      | Some _ => forallb (λ ev', negb (is_call ev')) rest
      | None => true
      end && quiet_after_raise rest
  end.

End Observations.

(** ** What is assumed of the package, where a property depends on it *)

(** The contents of a collection: its metadata and the records added to
    it, each an id, a text and a metadata mapping. *)
Record coll_data := CollData {
  coll_metadata : gmap string string;
  coll_docs : list (string * string * gmap string string)
}.

(** The records one [add] call contributes. *)
Definition records (ids documents : list string)
    (metadatas : list (gmap string string)) :
    list (string * string * gmap string string) :=
  zip_with (λ i dm, (i, dm.1, dm.2)) ids (zip documents metadatas).

(** How a library state is read: which directory a settings object, a
    client or a collection handle is bound to, which collection a handle
    names, the collections stored under a directory, and whether a
    directory can be written (it exists and is writable, or can be
    created). *)
Record View (L : ChromaLib) := {
  settings_dir : settings_t L → string;
  client_dir : client_t L → string;
  handle_dir : collection_t L → string;
  handle_name : collection_t L → string;
  colls : world L → string → gmap string coll_data;
  dir_usable : world L → string → bool
}.
Arguments settings_dir {L}.
Arguments client_dir {L}.
Arguments handle_dir {L}.
Arguments handle_name {L}.
Arguments colls {L}.
Arguments dir_usable {L}.

Section Laws.
Context {L : ChromaLib} (V : View L).

(** Objects are bound to what they were made from. *)
Record StoreHandles : Prop := {
  settings_bound : ∀ impl d tel w s w',
    lib_Settings L impl d tel w = (Ret s, w') → settings_dir V s = d;
  client_bound : ∀ s w c w',
    lib_Client L s w = (Ret c, w') → client_dir V c = settings_dir V s;
  handle_bound : ∀ c name md w h w',
    lib_create_collection L c name md w = (Ret h, w') →
    handle_dir V h = client_dir V c ∧ handle_name V h = name
}.

(** A call, whether it returns or raises, changes no collection but the
    one it is made on; the constructors and [query] change none. *)
Record StoreFrame : Prop := {
  settings_frame : ∀ impl d tel w o w',
    lib_Settings L impl d tel w = (o, w') → ∀ d', colls V w' d' = colls V w d';
  client_frame : ∀ s w o w',
    lib_Client L s w = (o, w') → ∀ d', colls V w' d' = colls V w d';
  create_frame : ∀ c name md w o w',
    lib_create_collection L c name md w = (o, w') →
    ∀ d' n', (d', n') ≠ (client_dir V c, name) →
    colls V w' d' !! n' = colls V w d' !! n';
  add_frame : ∀ h docs metas ids w o w',
    lib_add L h docs metas ids w = (o, w') →
    ∀ d' n', (d', n') ≠ (handle_dir V h, handle_name V h) →
    colls V w' d' !! n' = colls V w d' !! n';
  query_frame : ∀ h texts n w o w',
    lib_query L h texts n w = (o, w') → ∀ d', colls V w' d' = colls V w d'
}.

(** What the collection operations do when they return. *)
Record StoreEffects : Prop := {
  create_new : ∀ c name md w h w',
    lib_create_collection L c name md w = (Ret h, w') →
    colls V w (client_dir V c) !! name = None →
    colls V w' (client_dir V c) !! name = Some (CollData md []);
  add_docs : ∀ h docs metas ids w u w' cd,
    lib_add L h docs metas ids w = (Ret u, w') →
    colls V w (handle_dir V h) !! handle_name V h = Some cd →
    colls V w' (handle_dir V h) !! handle_name V h =
      Some (CollData (coll_metadata cd) (coll_docs cd ++ records ids docs metas));
  query_docs : ∀ h q qs n w r w' cd,
    lib_query L h (q :: qs) n w = (Ret r, w') →
    colls V w (handle_dir V h) !! handle_name V h = Some cd →
    0 <= n →
    ∃ m group rest,
      r = PyDict m ∧
      m !! "documents" = Some (PyList (PyList group :: rest)) ∧
      Z.of_nat (length group) = Z.min n (Z.of_nat (length (coll_docs cd)))
}.

(** No call changes whether a directory can be written. *)
Record DirStable : Prop := {
  settings_dir_stable : ∀ impl d tel w o w',
    lib_Settings L impl d tel w = (o, w') → ∀ d', dir_usable V w' d' = dir_usable V w d';
  client_dir_stable : ∀ s w o w',
    lib_Client L s w = (o, w') → ∀ d', dir_usable V w' d' = dir_usable V w d';
  create_dir_stable : ∀ c name md w o w',
    lib_create_collection L c name md w = (o, w') →
    ∀ d', dir_usable V w' d' = dir_usable V w d';
  add_dir_stable : ∀ h docs metas ids w o w',
    lib_add L h docs metas ids w = (o, w') →
    ∀ d', dir_usable V w' d' = dir_usable V w d';
  query_dir_stable : ∀ h texts n w o w',
    lib_query L h texts n w = (o, w') → ∀ d', dir_usable V w' d' = dir_usable V w d'
}.

(** When the calls return, and that a second collection of the same name
    is refused with an error of class [Exception]. *)
Record StoreProgress : Prop := {
  settings_returns : ∀ impl d tel w,
    ∃ s w', lib_Settings L impl d tel w = (Ret s, w');
  client_returns : ∀ s w,
    dir_usable V w (settings_dir V s) = true →
    ∃ c w', lib_Client L s w = (Ret c, w');
  create_returns : ∀ c name md w,
    dir_usable V w (client_dir V c) = true →
    colls V w (client_dir V c) !! name = None →
    ∃ h w', lib_create_collection L c name md w = (Ret h, w');
  create_refused : ∀ c name md w,
    is_Some (colls V w (client_dir V c) !! name) →
    ∃ e w', lib_create_collection L c name md w = (Raise e, w') ∧
            exn_is_Exception e = true;
  add_returns : ∀ h docs metas ids w cd,
    dir_usable V w (handle_dir V h) = true →
    colls V w (handle_dir V h) !! handle_name V h = Some cd →
    length docs = length ids → length metas = length ids →
    NoDup ids → (∀ i, i ∈ ids → i ∉ (coll_docs cd).*1.*1) →
    ∃ w', lib_add L h docs metas ids w = (Ret tt, w');
  query_returns : ∀ h q qs n w cd,
    colls V w (handle_dir V h) !! handle_name V h = Some cd →
    0 < n <= Z.of_nat (length (coll_docs cd)) →
    ∃ r w', lib_query L h (q :: qs) n w = (Ret r, w')
}.

(** A directory that cannot be written takes no collection and no
    document: [create_collection], if it raises, raises an [Exception],
    and [add] does raise one. *)
Record DirFailure : Prop := {
  create_raises_Exception : ∀ c name md w e w',
    lib_create_collection L c name md w = (Raise e, w') →
    exn_is_Exception e = true;
  add_needs_dir : ∀ h docs metas ids w o w',
    dir_usable V w (handle_dir V h) = false →
    lib_add L h docs metas ids w = (o, w') →
    ∃ e, o = Raise e ∧ exn_is_Exception e = true
}.

End Laws.

(** ** The report lines *)

(** The three lines the script can print (lines 39, 40 and 45). *)
Definition success_line : string := "✅ ChromaDB offline initialization successful".
Definition count_line (n : Z) : string :=
  "✅ Test collection created with " +:+ pretty n +:+ " documents".
Definition failure_line (e : exn) : string :=
  "❌ ChromaDB initialization failed: " +:+ exn_str e.

(** ** Output streams to run the script against *)

Module Console.

Definition UnicodeEncodeError (msg : string) : exn := Exn "UnicodeEncodeError" msg true.
Definition OSError (msg : string) : exn := Exn "OSError" msg true.

Definition byte (a : ascii) : Z := Z.of_nat (nat_of_ascii a).

(** The number of a code point, from its UTF-8 bytes. *)
Definition code_point (cp : string) : Z :=
  match cp with
  | String a EmptyString => byte a
  | String a (String b EmptyString) => (byte a - 192) * 64 + (byte b - 128)
  | String a (String b (String c EmptyString)) =>
      (byte a - 224) * 4096 + (byte b - 128) * 64 + (byte c - 128)
  | String a (String b (String c (String d EmptyString))) =>
      (byte a - 240) * 262144 + (byte b - 128) * 4096 + (byte c - 128) * 64
      + (byte d - 128)
  | _ => 0
  end.

Definition hex_digit (n : Z) : string :=
  String.substring (Z.to_nat n) 1 "0123456789abcdef".

Fixpoint hex (digits : nat) (n : Z) : string :=
  match digits with
  | O => EmptyString
  | S k => hex k (n / 16) +:+ hex_digit (n mod 16)
  end.

(** The character as the error message shows it. *)
Definition escape (cp : string) : string :=
  let v := code_point cp in
  if decide (v < 256) then "\x" +:+ hex 2 v
  else if decide (v < 65536) then "\u" +:+ hex 4 v
  else "\U" +:+ hex 8 v.

Definition is_ascii (cp : string) : bool := bool_decide (code_point cp < 128).

Fixpoint bad_run (cps : list string) : list string :=
  match cps with
  | cp :: rest => if is_ascii cp then [] else cp :: bad_run rest
  | [] => []
  end.

(** The position of the first code point outside ASCII, with the run of
    such code points that starts there. *)
Fixpoint first_bad (cps : list string) (pos : Z) : option (Z * list string) :=
  match cps with
  | [] => None
  | cp :: rest =>
      if is_ascii cp then first_bad rest (pos + 1)
      else Some (pos, cp :: bad_run rest)
  end.

(** A stream that takes every line. *)
Definition utf8 (line : string) : outcome unit := Ret tt.

(** A stream encoded in ASCII ([PYTHONIOENCODING=ascii]): a line with a
    character outside ASCII is refused whole. *)
Definition ascii (line : string) : outcome unit :=
  match first_bad (codepoints line) 0 with
  | None => Ret tt
  | Some (pos, [cp]) =>
      Raise (UnicodeEncodeError
               ("'ascii' codec can't encode character '" +:+ escape cp
                +:+ "' in position " +:+ pretty pos
                +:+ ": ordinal not in range(128)"))
  | Some (pos, run) =>
      Raise (UnicodeEncodeError
               ("'ascii' codec can't encode characters in position " +:+ pretty pos
                +:+ "-" +:+ pretty (pos + Z.of_nat (length run) - 1)
                +:+ ": ordinal not in range(128)"))
  end.

(** A stream with room for the first success line and nothing else. *)
Definition full_after_banner (line : string) : outcome unit :=
  if decide (line = success_line) then Ret tt
  else Raise (OSError "[Errno 28] No space left on device").

End Console.

(** ** Two libraries to run the script against *)

(** A scripted library: every call, and every [print], answers what the
    state says it should, and changes nothing.  It exhibits any pattern of
    returns and raises. *)
Module Scripted.

Record answers := Answers {
  on_Settings : option exn;
  on_Client : option exn;
  on_create_collection : option exn;
  on_add : option exn;
  on_query : outcome pyval;
  on_print : string → outcome unit
}.

Definition answer (a : option exn) : outcome unit :=
  match a with
  | Some e => Raise e
  | None => Ret tt
  end.

Definition lib : ChromaLib := {|
  world := answers;
  settings_t := unit;
  client_t := unit;
  collection_t := unit;
  lib_Settings := λ _ _ _ w, (answer (on_Settings w), w);
  lib_Client := λ _ w, (answer (on_Client w), w);
  lib_create_collection := λ _ _ _ w, (answer (on_create_collection w), w);
  lib_add := λ _ _ _ _ w, (answer (on_add w), w);
  lib_query := λ _ _ _ w, (on_query w, w);
  print_line := λ w line, on_print w line
|}.

(** The response to one query text that matched the listed documents. *)
Definition response (documents : list string) : pyval :=
  PyDict (<["ids" := PyList [PyList (PyStr <$> ["test_doc_1"])]]>
         (<["documents" := PyList [PyList (PyStr <$> documents)]]> ∅)).

Definition all_fine (r : pyval) : answers :=
  Answers None None None None (Ret r) Console.utf8.

(** Every call returns, with standard output encoded in ASCII. *)
Definition ascii_stdout (r : pyval) : answers :=
  Answers None None None None (Ret r) Console.ascii.

(** Every call returns, with standard output filling up. *)
Definition stdout_fills (r : pyval) : answers :=
  Answers None None None None (Ret r) Console.full_after_banner.

(** The installed package rejects the configuration when the client is
    built from it. *)
Definition deprecated : exn :=
  ValueError "You are using a deprecated configuration of Chroma.".
Definition client_rejected : answers :=
  Answers None (Some deprecated) None None (Ret PyNone) Console.utf8.

(** The collection is there already. *)
Definition duplicate : exn :=
  ValueError "Collection with name test_offline_collection already exists".
Definition collection_exists : answers :=
  Answers None None (Some duplicate) None (Ret PyNone) Console.utf8.

End Scripted.

(** An in-memory store with a disk of directories: a directory is either
    present (writable or read-only) or absent, and absent directories can
    be created or not.  Collections live in the directory of the client
    that made them and persist from one run to the next.  Standard output
    takes every line, or is encoded in ASCII. *)
Module Mem.

Record directory := Directory {
  d_readonly : bool;
  d_colls : gmap string coll_data
}.

Record state := State {
  can_mkdir : bool;
  disk : gmap string directory;
  stdout_ascii : bool
}.

Definition put_dir (d : string) (dir : directory) (w : state) : state :=
  State (can_mkdir w) (<[d := dir]> (disk w)) (stdout_ascii w).

(** The directory as a call finds it; a missing one is made on the way,
    where that is possible. *)
Definition open_dir (d : string) (w : state) : option directory :=
  match disk w !! d with
  | Some dir => Some dir
  | None => if can_mkdir w then Some (Directory false ∅) else None
  end.

Definition put_coll (d name : string) (cd : coll_data) (dir : directory)
    (w : state) : state :=
  put_dir d (Directory (d_readonly dir) (<[name := cd]> (d_colls dir))) w.

Definition Settings (impl d : string) (tel : bool) (w : state) :
    outcome (string * string * bool) * state :=
  (Ret (impl, d, tel), w).

Definition Client (s : string * string * bool) (w : state) : outcome string * state :=
  let d := s.1.2 in
  match open_dir d w with
  | Some dir => (Ret d, put_dir d dir w)
  | None => (Raise (PermissionError d), w)
  end.

Definition create_collection (d name : string) (md : gmap string string)
    (w : state) : outcome (string * string) * state :=
  match open_dir d w with
  | None => (Raise (PermissionError d), w)
  | Some dir =>
      match d_colls dir !! name with
      | Some _ =>
          (Raise (ValueError ("Collection with name " +:+ name +:+ " already exists")), w)
      | None =>
          if d_readonly dir then (Raise (PermissionError d), w)
          else (Ret (d, name), put_coll d name (CollData md []) dir w)
      end
  end.

Definition add (h : string * string) (docs : list string)
    (metas : list (gmap string string)) (ids : list string) (w : state) :
    outcome unit * state :=
  match open_dir h.1 w with
  | None => (Raise (PermissionError h.1), w)
  | Some dir =>
      match d_colls dir !! h.2 with
      | None => (Raise (ValueError ("Collection " +:+ h.2 +:+ " does not exist")), w)
      | Some cd =>
          if d_readonly dir then (Raise (PermissionError h.1), w)
          else if bool_decide (length docs = length ids ∧ length metas = length ids
                               ∧ NoDup ids
                               ∧ Forall (λ i, i ∉ (coll_docs cd).*1.*1) ids)
          then (Ret tt,
                put_coll h.1 h.2
                  (CollData (coll_metadata cd) (coll_docs cd ++ records ids docs metas))
                  dir w)
          else (Raise (ValueError "ids, documents and metadatas do not fit the collection"), w)
      end
  end.

(** The query ranks nothing: it answers the oldest [n] documents, once
    per query text, and refuses to answer more than it holds. *)
Definition query (h : string * string) (texts : list string) (n : Z) (w : state) :
    outcome pyval * state :=
  match disk w !! h.1 ≫= λ dir, d_colls dir !! h.2 with
  | None => (Raise (ValueError ("Collection " +:+ h.2 +:+ " does not exist")), w)
  | Some cd =>
      if bool_decide (0 < n <= Z.of_nat (length (coll_docs cd))) then
        let hits := take (Z.to_nat n) (coll_docs cd) in
        (Ret (PyDict
                (<["ids" := PyList ((λ _, PyList (PyStr <$> hits.*1.*1)) <$> texts)]>
                (<["documents" := PyList ((λ _, PyList (PyStr <$> hits.*1.*2)) <$> texts)]>
                 ∅))), w)
      else (Raise (Exn "NotEnoughElementsException"
                      "Number of requested results cannot be served" true), w)
  end.

Definition lib : ChromaLib := {|
  world := state;
  settings_t := string * string * bool;
  client_t := string;
  collection_t := string * string;
  lib_Settings := Settings;
  lib_Client := Client;
  lib_create_collection := create_collection;
  lib_add := add;
  lib_query := query;
  print_line := λ w line, if stdout_ascii w then Console.ascii line else Console.utf8 line
|}.

Definition view : View lib := {|
  settings_dir := λ s : settings_t lib, s.1.2;
  client_dir := λ c : client_t lib, c;
  handle_dir := λ h : collection_t lib, h.1;
  handle_name := λ h : collection_t lib, h.2;
  colls := λ (w : world lib) d, default ∅ (d_colls <$> disk w !! d);
  dir_usable := λ (w : world lib) d,
    match disk w !! d with
    | Some dir => negb (d_readonly dir)
    | None => can_mkdir w
    end
|}.

(** Nothing on disk yet, and directories can be made. *)
Definition fresh : state := State true ∅ false.

(** The same, with standard output encoded in ASCII. *)
Definition fresh_ascii : state := State true ∅ true.

(** Nothing on disk, and nowhere to make a directory. *)
Definition sealed : state := State false ∅ false.

(** The persistence directory of a script in [/srv/app] exists, is empty
    and is read-only. *)
Definition readonly : state :=
  State true {[ "/srv/app/persist" := Directory true ∅ ]} false.

(** The persistence directory of a script in [/srv/app] already holds a
    collection of somebody else's. *)
Definition notes : coll_data :=
  CollData {[ "owner" := "ops" ]} [("n1", "rotate the keys", ∅)].
Definition shared : state :=
  State true {[ "/srv/app/persist" := Directory false {[ "notes" := notes ]} ]} false.

(** The persistence directory of a script in [/srv/app] holds the test
    collection already. *)
Definition initialized : state :=
  State true
    {[ "/srv/app/persist" :=
         Directory false {[ "test_offline_collection" := CollData ∅ [] ]} ]}
    false.

End Mem.

(** ** Statements that are put to the test below *)

(** Every failure of a library call, the two constructors included, ends
    in the failure line and [False]. *)
Definition every_failure_caught : Prop :=
  ∀ (L : ChromaLib) (script_dir : string) (w : world L) (ev : event L) (e : exn),
    let r := initialize_chromadb script_dir w in
    ev ∈ trace r → call_raised ev = Some e → exn_is_Exception e = true →
    result r = Ret false ∧
    "❌ ChromaDB initialization failed: " +:+ exn_str e ∈ stdout (trace r).

(** With a persistence directory that cannot be written the run ends in
    [False], whatever lawful library it runs against. *)
Definition unusable_directory_gives_false : Prop :=
  ∀ (L : ChromaLib) (V : View L),
    StoreHandles V → DirStable V → DirFailure V →
    ∀ (script_dir : string) (w : world L),
      dir_usable V w (script_dir +:+ "/persist") = false →
      result (initialize_chromadb script_dir w) = Ret false.

(** When every library call of a run returns, the run prints the two
    success lines and returns [True]. *)
Definition calls_succeed_gives_true : Prop :=
  ∀ (L : ChromaLib) (script_dir : string) (w : world L),
    let r := initialize_chromadb script_dir w in
    Forall (λ ev, call_raised ev = None) (trace r) →
    result r = Ret true ∧ ∃ n, stdout (trace r) = [success_line; count_line n].


(** Every run creates the collection, adds the document and queries. *)
Definition every_run_performs_all : Prop :=
  ∀ (L : ChromaLib) (script_dir : string) (w : world L),
    ∃ c h o1 o2 o3,
      List.filter is_collection_call (trace (initialize_chromadb script_dir w)) =
        [ CallCreateCollection c "test_offline_collection"
            {[ "description" := "Test collection for offline verification" ]} o1;
          CallAdd h ["This is a test document for offline ChromaDB"]
            [ {[ "source" := "offline_test" ]} ] ["test_doc_1"] o2;
          CallQuery h ["test document"] 1 o3 ].

(** A query response without a ['documents'] field, or without a first
    result group, ends in a failure line and [False]. *)
Definition malformed_response_gives_false : Prop :=
  ∀ (L : ChromaLib) (script_dir : string) (w : world L) (h : collection_t L)
    (texts : list string) (n : Z) (m : gmap string pyval),
    let r := initialize_chromadb script_dir w in
    CallQuery h texts n (Ret (PyDict m)) ∈ trace r →
    m !! "documents" = None ∨ m !! "documents" = Some (PyList []) →
    result r = Ret false ∧ ∃ e, failure_line e ∈ stdout (trace r).

(** Two more assumptions a property below makes of the package: a second
    collection of a name is refused with an [Exception], and [add],
    however it ends, removes no collection it is made on. *)
Definition refuses_duplicates {L : ChromaLib} (V : View L) : Prop :=
  ∀ c name md w,
    is_Some (colls V w (client_dir V c) !! name) →
    ∃ e w', lib_create_collection L c name md w = (Raise e, w') ∧
            exn_is_Exception e = true.

Definition add_keeps_collection {L : ChromaLib} (V : View L) : Prop :=
  ∀ h docs metas ids w o w',
    lib_add L h docs metas ids w = (o, w') →
    is_Some (colls V w (handle_dir V h) !! handle_name V h) →
    is_Some (colls V w' (handle_dir V h) !! handle_name V h).

(** ** Properties of a run *)

(** Unfolds a run into its library calls and prints and splits on how each
    ends.  Hypotheses about the run must still be in the goal. *)
Ltac unfold_run :=
  unfold initialize_chromadb, try_except, bind, Settings, Client,
    create_collection, add, query, call, print, eval, ret;
  cbn beta iota zeta.

Ltac split_call :=
  match goal with
  | |- context [lib_Settings ?L ?a ?b ?c ?w] =>
      destruct (lib_Settings L a b c w) as [[?s|?e] ?w] eqn:?HSettings
  | |- context [lib_Client ?L ?s ?w] =>
      destruct (lib_Client L s w) as [[?c|?e] ?w] eqn:?HClient
  | |- context [lib_create_collection ?L ?c ?n ?m ?w] =>
      destruct (lib_create_collection L c n m w) as [[?h|?e] ?w] eqn:?HCreate
  | |- context [lib_add ?L ?h ?d ?m ?i ?w] =>
      destruct (lib_add L h d m i w) as [[[]|?e] ?w] eqn:?HAdd
  | |- context [lib_query ?L ?h ?q ?n ?w] =>
      destruct (lib_query L h q n w) as [[?r|?e] ?w] eqn:?HQuery
  | |- context [print_line ?L ?w ?line] =>
      destruct (print_line L w line) as [[]|?e] eqn:?HPrint
  | |- context [first_group_len ?r] =>
      destruct (first_group_len r) as [?n|?e] eqn:?HLen
  | |- context [exn_is_Exception ?e] =>
      destruct (exn_is_Exception e) eqn:?HExc
  end;
  cbn beta iota zeta.

Ltac run_cases := unfold_run; repeat split_call; cbn.

(** Membership of an event in an explicit trace. *)
Ltac in_trace H :=
  repeat (apply elem_of_cons in H as [H|H]; [try discriminate H|]);
  try (apply elem_of_nil in H; destruct H).

(** Closes the goal when a [Forall] over an explicit trace is false at one
    of its events. *)
Ltac all_in_trace H :=
  repeat (apply Forall_cons in H as [? H]); cbn in *; try discriminate.

Section Traces.
Context {L : ChromaLib}.
Implicit Types (t : list (event L)) (ev : event L).

Lemma forallb_not_call t :
  forallb (λ ev, negb (is_call ev)) t = true → Forall (λ ev, is_call ev = false) t.
Proof.
  induction t as [|ev t IH]; cbn; intros H; constructor.
  - apply andb_prop in H as [H _]. by destruct (is_call ev).
  - apply IH. by apply andb_prop in H as [_ H].
Qed.

Lemma quiet_after_raise_split t :
  quiet_after_raise t = true →
  ∀ t1 ev t2 e, t = t1 ++ ev :: t2 → call_raised ev = Some e →
  Forall (λ ev', is_call ev' = false) t2.
Proof.
  intros Hq t1. revert t Hq.
  induction t1 as [|ev1 t1 IH]; intros t Hq ev t2 e -> Hev; cbn in Hq.
  - rewrite Hev in Hq. apply andb_prop in Hq as [Hq _]. by apply forallb_not_call.
  - apply andb_prop in Hq as [_ Hq]. by eapply IH.
Qed.

Lemma run_quiet_after_raise script_dir (w : world L) :
  quiet_after_raise (trace (initialize_chromadb script_dir w)) = true.
Proof. run_cases; reflexivity. Qed.

End Traces.


(** C7, as the code has it.  The library calls of a run are, in this
    order: [Settings], [Client], then [create_collection] of
    ["test_offline_collection"] with the description metadata, [add] of
    the one document, its metadata and the id ["test_doc_1"] to the
    collection just created, and [query] of that collection for
    ["test document"] with [n_results = 1].  Each call is made only if
    every call before it returned: the sequence ends at the first call
    that raises, and is complete when none does. *)
Theorem collection_operations_in_order (L : ChromaLib) (script_dir : string)
    (w : world L) :
  let r := initialize_chromadb script_dir w in
  let calls := List.filter is_call (trace r) in
  let settings := CallSettings "duckdb+parquet" (script_dir +:+ "/persist") false in
  let name := "test_offline_collection" in
  let metadata : gmap string string :=
    {[ "description" := "Test collection for offline verification" ]} in
  let documents := ["This is a test document for offline ChromaDB"] in
  let metadatas : list (gmap string string) := [ {[ "source" := "offline_test" ]} ] in
  let ids := ["test_doc_1"] in
  (∃ e, calls = [settings (Raise e)])
  ∨ (∃ s e, calls = [settings (Ret s); CallClient s (Raise e)])
  ∨ (∃ s c e,
       calls = [settings (Ret s); CallClient s (Ret c);
                CallCreateCollection c name metadata (Raise e)])
  ∨ (∃ s c h e,
       calls = [settings (Ret s); CallClient s (Ret c);
                CallCreateCollection c name metadata (Ret h);
                CallAdd h documents metadatas ids (Raise e)])
  ∨ (∃ s c h o,
       calls = [settings (Ret s); CallClient s (Ret c);
                CallCreateCollection c name metadata (Ret h);
                CallAdd h documents metadatas ids (Ret tt);
                CallQuery h ["test document"] 1 o]).
Proof.
  run_cases;
    first [ left; eexists; reflexivity
          | right; left; eexists _, _; reflexivity
          | right; right; left; eexists _, _, _; reflexivity
          | right; right; right; left; eexists _, _, _, _; reflexivity
          | right; right; right; right; eexists _, _, _, _; reflexivity ].
Qed.

(** C10.  Within a run nothing is asked of the library after a call of it
    has raised: whatever follows the failing call in the trace is printing
    only.  So when [create_collection] raises, neither [add] nor [query]
    is called, and when [add] raises, [query] is not. *)
Theorem failure_short_circuits (L : ChromaLib) (script_dir : string) (w : world L) :
  let t := trace (initialize_chromadb script_dir w) in
  (∀ t1 ev t2 e,
     t = t1 ++ ev :: t2 → call_raised ev = Some e →
     Forall (λ ev', is_call ev' = false) t2)
  ∧ (∀ c name md e,
       CallCreateCollection c name md (Raise e) ∈ t →
       ∀ ev', ev' ∈ t →
       match ev' with CallAdd _ _ _ _ _ | CallQuery _ _ _ _ => False | _ => True end)
  ∧ (∀ h docs metas ids e,
       CallAdd h docs metas ids (Raise e) ∈ t →
       ∀ ev', ev' ∈ t →
       match ev' with CallQuery _ _ _ _ => False | _ => True end).
Proof.
  split; [|split].
  - cbn zeta. apply quiet_after_raise_split, run_quiet_after_raise.
  - cbn zeta. run_cases; intros c' name' md' e' Hin ev' Hev';
      in_trace Hin; in_trace Hev'; by subst.
  - cbn zeta. run_cases; intros h' docs' metas' ids' e' Hin ev' Hev';
      in_trace Hin; in_trace Hev'; by subst.
Qed.

Section Responses.

(** A response with a first result group has the size of that group as
    its count. *)
Lemma first_group_len_group (m : gmap string pyval) (group rest : list pyval) :
  m !! "documents" = Some (PyList (PyList group :: rest)) →
  first_group_len (PyDict m) = Ret (Z.of_nat (length group)).
Proof. intros Hm. unfold first_group_len. cbn. by rewrite Hm. Qed.

Lemma first_group_len_no_documents (m : gmap string pyval) :
  m !! "documents" = None →
  first_group_len (PyDict m) = Raise (KeyError (PyStr "documents")).
Proof. intros Hm. unfold first_group_len. cbn. by rewrite Hm. Qed.

Lemma first_group_len_no_group (m : gmap string pyval) :
  m !! "documents" = Some (PyList []) →
  first_group_len (PyDict m) = Raise (IndexError "list index out of range").
Proof. intros Hm. unfold first_group_len. cbn. by rewrite Hm. Qed.

(** The built-in operations raise nothing that [except Exception] would
    let through. *)
Lemma py_getitem_raises_Exception obj key e :
  py_getitem obj key = Raise e → exn_is_Exception e = true.
Proof.
  unfold py_getitem. intros H.
  repeat (case_match; simplify_eq); reflexivity.
Qed.

Lemma py_len_raises_Exception obj e :
  py_len obj = Raise e → exn_is_Exception e = true.
Proof. destruct obj; cbn; intros H; simplify_eq; reflexivity. Qed.

Lemma first_group_len_raises_Exception r e :
  first_group_len r = Raise e → exn_is_Exception e = true.
Proof.
  unfold first_group_len. intros H.
  destruct (py_getitem r _) as [d|e1] eqn:H1.
  - destruct (py_getitem d _) as [g|e2] eqn:H2.
    + by eapply py_len_raises_Exception.
    + simplify_eq. by eapply py_getitem_raises_Exception.
  - simplify_eq. by eapply py_getitem_raises_Exception.
Qed.

End Responses.

(** C3, as the code has it.  When every library call of the run returns,
    the query with a response that has a first result group, and both
    success lines can be printed, the run prints the success line, then
    the line with the number of documents in that group, and returns
    [True]. *)
Theorem success_reports_count (L : ChromaLib) (script_dir : string) (w : world L)
    (h : collection_t L) (texts : list string) (n : Z)
    (m : gmap string pyval) (group rest : list pyval) :
  let r := initialize_chromadb script_dir w in
  Forall (λ ev, call_raised ev = None) (trace r) →
  Forall (λ ev, print_raised ev = None) (trace r) →
  CallQuery h texts n (Ret (PyDict m)) ∈ trace r →
  m !! "documents" = Some (PyList (PyList group :: rest)) →
  result r = Ret true ∧
  stdout (trace r) =
    [ "✅ ChromaDB offline initialization successful";
      "✅ Test collection created with "
        +:+ pretty (Z.of_nat (length group)) +:+ " documents" ].
Proof.
  cbn zeta. run_cases; intros _ Hprints Hin Hm; in_trace Hin; simplify_eq;
    all_in_trace Hprints;
    rewrite (first_group_len_group _ _ _ Hm) in HLen; simplify_eq.
  split; reflexivity.
Qed.

(** C9, as the code has it.  When the query returns a response in which
    the ['documents'] field is missing, or in which it holds no first
    result group, reading the count raises ([KeyError], [IndexError])
    inside the [try].  If the prints of the run return, the run prints
    the success line, then the failure line with that error's text, and
    returns [False]. *)
Theorem malformed_response_reported (L : ChromaLib) (script_dir : string)
    (w : world L) (h : collection_t L) (texts : list string) (n : Z)
    (m : gmap string pyval) (e : exn) :
  let r := initialize_chromadb script_dir w in
  CallQuery h texts n (Ret (PyDict m)) ∈ trace r →
  (m !! "documents" = None ∧ e = KeyError (PyStr "documents"))
  ∨ (m !! "documents" = Some (PyList []) ∧ e = IndexError "list index out of range") →
  Forall (λ ev, print_raised ev = None) (trace r) →
  result r = Ret false ∧
  stdout (trace r) =
    [ "✅ ChromaDB offline initialization successful";
      "❌ ChromaDB initialization failed: " +:+ exn_str e ].
Proof.
  cbn zeta. run_cases; intros Hin Hm Hprints; in_trace Hin; simplify_eq;
    all_in_trace Hprints;
    destruct Hm as [[Hm ->]|[Hm ->]];
    first [ rewrite (first_group_len_no_documents _ Hm) in HLen
          | rewrite (first_group_len_no_group _ Hm) in HLen ];
    simplify_eq; split; reflexivity.
Qed.

(** C1, as the code has it.  An error of class [Exception] raised by
    [create_collection], [add] or [query] is caught by the one [except]
    clause, which prints the failure line with the error's text: if that
    print returns, the line is the last of the output and the run returns
    [False]; if that print raises, its error reaches the caller.  An error
    raised by [Settings] or [Client] is raised before the [try] is
    entered: it reaches the caller, and nothing is printed. *)
Theorem failure_caught_inside_try (L : ChromaLib) (script_dir : string)
    (w : world L) (ev : event L) (e : exn) :
  let r := initialize_chromadb script_dir w in
  ev ∈ trace r → call_raised ev = Some e →
  (is_collection_call ev = true → exn_is_Exception e = true →
     (Forall (λ ev', print_raised ev' = None) (trace r) →
        result r = Ret false ∧ last (stdout (trace r)) = Some (failure_line e))
     ∧ (∀ line e', PrintRaised line e' ∈ trace r →
                   line = failure_line e ∧ result r = Raise e'))
  ∧ (is_collection_call ev = false →
     result r = Raise e ∧ stdout (trace r) = []).
Proof.
  cbn zeta. run_cases; intros Hin Hev; in_trace Hin; subst ev; cbn in Hev;
    simplify_eq; (split; [intros Hc Hexc|intros Hc]); try discriminate Hc;
    try congruence; try (split; reflexivity).
  all: split; [intros Hprints; all_in_trace Hprints; split; reflexivity
              |intros line e' Hp; in_trace Hp; by simplify_eq].
Qed.

(** ** The in-memory store obeys every law *)

Module MemLaws.
Import Mem.

Section Mem.
Implicit Types (w : state) (d name : string) (dir : directory).

Lemma open_dir_colls d w dir : open_dir d w = Some dir → colls view w d = d_colls dir.
Proof.
  unfold open_dir. cbn. destruct (disk w !! d); [by intros [= ->]|].
  destruct (can_mkdir w); by intros [= <-].
Qed.

Lemma open_dir_usable d w dir :
  open_dir d w = Some dir → dir_usable view w d = negb (d_readonly dir).
Proof.
  unfold open_dir. cbn. destruct (disk w !! d); [by intros [= ->]|].
  destruct (can_mkdir w); by intros [= <-].
Qed.

Lemma open_dir_None d w : open_dir d w = None → dir_usable view w d = false.
Proof.
  unfold open_dir. cbn. destruct (disk w !! d); [done|]. by destruct (can_mkdir w).
Qed.

Lemma colls_lookup d w name :
  disk w !! d ≫= (λ dir, d_colls dir !! name) = colls view w d !! name.
Proof. cbn. by destruct (disk w !! d). Qed.

Lemma colls_put_dir d dir w d' :
  colls view (put_dir d dir w) d' = if decide (d = d') then d_colls dir else colls view w d'.
Proof. cbn. rewrite lookup_insert. by case_decide. Qed.

Lemma usable_put_dir d dir w d' :
  dir_usable view (put_dir d dir w) d' =
    if decide (d = d') then negb (d_readonly dir) else dir_usable view w d'.
Proof. cbn. rewrite lookup_insert. by case_decide. Qed.

Lemma colls_put_coll d name cd dir w d' n' :
  open_dir d w = Some dir →
  colls view (put_coll d name cd dir w) d' !! n' =
    if decide ((d, name) = (d', n')) then Some cd else colls view w d' !! n'.
Proof.
  intros Hd. unfold put_coll. rewrite colls_put_dir. cbn [d_colls].
  destruct (decide (d = d')) as [<-|Hne].
  - rewrite (open_dir_colls _ _ _ Hd), lookup_insert.
    repeat case_decide; simplify_eq; done.
  - rewrite decide_False by congruence. done.
Qed.

Lemma usable_put_coll d name cd dir w d' :
  open_dir d w = Some dir →
  dir_usable view (put_coll d name cd dir w) d' = dir_usable view w d'.
Proof.
  intros Hd. unfold put_coll. rewrite usable_put_dir. cbn [d_readonly].
  case_decide; [subst d'|done]. by rewrite (open_dir_usable _ _ _ Hd).
Qed.

End Mem.

(** Reduces a law about one call to the branches of the operation. *)
Ltac mem_op H :=
  cbn in H; unfold Settings, Client, create_collection, add, query in H;
  repeat case_match; simplify_eq; try done.

Lemma handles : StoreHandles view.
Proof.
  split.
  - intros impl d tel w s w' H. by mem_op H.
  - intros s w c w' H. by mem_op H.
  - intros c name md w h w' H. by mem_op H.
Qed.

Lemma frame : StoreFrame view.
Proof.
  split.
  - intros impl d tel w o w' H d'. mem_op H.
  - intros s w o w' H d'. mem_op H.
    rewrite colls_put_dir. case_decide; [subst d'|done].
    symmetry. by apply open_dir_colls.
  - intros c name md w o w' H d' n' Hne. mem_op H.
    erewrite colls_put_coll by done.
    by rewrite decide_False by (cbn in Hne; congruence).
  - intros h docs metas ids w o w' H d' n' Hne. mem_op H.
    erewrite colls_put_coll by done.
    by rewrite decide_False by (destruct h; cbn in *; congruence).
  - intros h texts n w o w' H d'. mem_op H.
Qed.

Lemma effects : StoreEffects view.
Proof.
  split.
  - intros c name md w h w' H Hnone. mem_op H.
    erewrite colls_put_coll by done. by rewrite decide_True.
  - intros [d name] docs metas ids w u w' cd H Hcd. mem_op H.
    erewrite colls_put_coll by done. rewrite decide_True by done.
    cbn [handle_dir handle_name view] in Hcd.
    erewrite open_dir_colls in Hcd by done. cbn in *. by simplify_eq.
  - intros [d name] q qs n w r w' cd H Hcd Hn.
    cbn [lib_query lib] in H. unfold query in H.
    cbn [handle_dir handle_name view fst snd] in *.
    rewrite colls_lookup, Hcd in H.
    case_bool_decide; simplify_eq.
    eexists _, _, _. split; [reflexivity|]. split.
    + rewrite lookup_insert_ne by done. rewrite lookup_insert_eq. cbn. reflexivity.
    + rewrite !length_fmap, length_take. lia.
Qed.

Lemma dir_stable : DirStable view.
Proof.
  split.
  - intros impl d tel w o w' H d'. mem_op H.
  - intros s w o w' H d'. mem_op H.
    rewrite usable_put_dir. case_decide; [subst d'|done].
    symmetry. by apply open_dir_usable.
  - intros c name md w o w' H d'. mem_op H. by apply usable_put_coll.
  - intros h docs metas ids w o w' H d'. mem_op H. by apply usable_put_coll.
  - intros h texts n w o w' H d'. mem_op H.
Qed.

Lemma dir_failure : DirFailure view.
Proof.
  split.
  - intros c name md w e w' H. mem_op H.
  - intros [d name] docs metas ids w o w' Hdir H.
    cbn [handle_dir view fst] in Hdir. mem_op H; eauto.
    all: match goal with
         | Hd : open_dir _ _ = Some _, Hr : d_readonly _ = false |- _ =>
             apply open_dir_usable in Hd; cbn [fst] in Hd;
             rewrite Hdir, Hr in Hd; discriminate Hd
         end.
Qed.

Lemma progress : StoreProgress view.
Proof.
  split.
  - intros impl d tel w. by eexists _, _.
  - intros s w Hdir. cbn [lib_Client lib]. unfold Client.
    destruct (open_dir s.1.2 w) as [dir|] eqn:Hd; [by eexists _, _|].
    apply open_dir_None in Hd. cbn [settings_dir view] in Hdir. congruence.
  - intros c name md w Hdir Hnone. cbn [lib_create_collection lib]. unfold create_collection.
    cbn [client_dir view] in *.
    destruct (open_dir c w) as [dir|] eqn:Hd.
    + rewrite (open_dir_colls _ _ _ Hd) in Hnone. rewrite Hnone.
      rewrite (open_dir_usable _ _ _ Hd) in Hdir. apply negb_true_iff in Hdir.
      rewrite Hdir. by eexists _, _.
    + apply open_dir_None in Hd. congruence.
  - intros c name md w [cd Hcd]. cbn [lib_create_collection lib]. unfold create_collection.
    cbn [client_dir view] in *.
    destruct (open_dir c w) as [dir|] eqn:Hd.
    + rewrite (open_dir_colls _ _ _ Hd) in Hcd. rewrite Hcd. by eexists _, _.
    + by eexists _, _.
  - intros [d name] docs metas ids w cd Hdir Hcd Hl1 Hl2 Hnd Hfresh.
    cbn [lib_add lib]. unfold add. cbn [handle_dir handle_name view fst snd] in *.
    destruct (open_dir d w) as [dir|] eqn:Hd.
    + rewrite (open_dir_colls _ _ _ Hd) in Hcd. rewrite Hcd.
      rewrite (open_dir_usable _ _ _ Hd) in Hdir. apply negb_true_iff in Hdir.
      rewrite Hdir. rewrite bool_decide_eq_true_2; [by eexists|].
      repeat split; try done. by apply Forall_forall.
    + apply open_dir_None in Hd. congruence.
  - intros [d name] q qs n w cd Hcd Hn.
    cbn [lib_query lib]. unfold query. cbn [handle_dir handle_name view fst snd] in *.
    rewrite colls_lookup, Hcd. rewrite bool_decide_eq_true_2 by done. by eexists _, _.
Qed.
End MemLaws.

(** ** Properties that rest on laws of the library *)

Section Lawful.
Context {L : ChromaLib} (V : View L).

(** C8.  Against a library in which a call changes no collection but the
    one it is made on, a run leaves every collection with another name as
    it found it, in every directory: each [create_collection] of the run
    names ["test_offline_collection"], and each [add] and [query] is made
    on a handle of that name. *)
Theorem other_collections_untouched (HH : StoreHandles V) (HF : StoreFrame V)
    (script_dir : string) (w : world L) :
  let r := initialize_chromadb script_dir w in
  Forall (λ ev,
            match ev with
            | CallCreateCollection _ name _ _ => name = "test_offline_collection"
            | CallAdd h _ _ _ _ | CallQuery h _ _ _ =>
                handle_name V h = "test_offline_collection"
            | _ => True
            end) (trace r)
  ∧ ∀ d name, name ≠ "test_offline_collection" →
           colls V (final r) d !! name = colls V w d !! name.
Proof.
  cbn zeta. run_cases.
  all: try (pose proof (handle_bound V HH _ _ _ _ _ _ HCreate) as [Hhd Hhn]).
  all: unfold trace, final; cbn [fst snd].
  all: split; [repeat (apply Forall_cons; split; [done|]); apply Forall_nil_2|intros d name Hn].
  all: repeat match goal with
    | H : lib_query L _ _ _ _ = (_, ?w') |- context [colls V ?w' _] =>
        rewrite (query_frame V HF _ _ _ _ _ _ H)
    | H : lib_add L _ _ _ _ _ = (_, ?w') |- context [colls V ?w' _] =>
        rewrite (add_frame V HF _ _ _ _ _ _ _ H) by congruence
    | H : lib_create_collection L _ _ _ _ = (_, ?w') |- context [colls V ?w' _] =>
        rewrite (create_frame V HF _ _ _ _ _ _ H) by congruence
    | H : lib_Client L _ _ = (_, ?w') |- context [colls V ?w' _] =>
        rewrite (client_frame V HF _ _ _ _ H)
    | H : lib_Settings L _ _ _ _ = (_, ?w') |- context [colls V ?w' _] =>
        rewrite (settings_frame V HF _ _ _ _ _ _ H)
    end.
  all: reflexivity.
Qed.

(** C4.  Against a library whose collections hold what was added to them
    and whose query answers [min n_results count] documents in its first
    group: a run that starts with no collection in the persistence
    directory and returns [True] reports the count 1, the one document
    added being all there is and [n_results] being 1. *)
Theorem fresh_run_counts_one (HH : StoreHandles V) (HF : StoreFrame V)
    (HE : StoreEffects V) (script_dir : string) (w : world L) :
  let r := initialize_chromadb script_dir w in
  colls V w (script_dir +:+ "/persist") = ∅ →
  result r = Ret true →
  stdout (trace r) =
    [ "✅ ChromaDB offline initialization successful";
      "✅ Test collection created with 1 documents" ].
Proof.
  cbn zeta. run_cases; intros Hfresh Hres; try discriminate Hres.
  unfold trace; cbn [fst snd stdout omap].
  pose proof (settings_bound V HH _ _ _ _ _ _ HSettings) as Hs.
  pose proof (client_bound V HH _ _ _ _ HClient) as Hc.
  pose proof (handle_bound V HH _ _ _ _ _ _ HCreate) as [Hhd Hhn].
  rewrite Hs in Hc. rewrite Hc in Hhd.
  pose proof (client_frame V HF _ _ _ _ HClient (script_dir +:+ "/persist")) as Hw1.
  rewrite (settings_frame V HF _ _ _ _ _ _ HSettings), Hfresh in Hw1.
  pose proof (create_new V HE _ _ _ _ _ _ HCreate) as Hw2.
  rewrite Hc, Hw1 in Hw2. specialize (Hw2 (lookup_empty _)).
  rewrite <- Hhd, <- Hhn in Hw2.
  pose proof (add_docs V HE _ _ _ _ _ _ _ _ HAdd Hw2) as Hw3.
  destruct (query_docs V HE _ _ _ _ _ _ _ _ HQuery Hw3) as (m & group & rest & -> & Hm & Hlen);
    [lia|].
  rewrite (first_group_len_group _ _ _ Hm) in HLen. simplify_eq.
  cbn in Hlen. rewrite Hlen. reflexivity.
Qed.

(** C2, as the code has it.  With a persistence directory that cannot be
    written, and a library that can store no document there: once the
    client was constructed, the error is raised by [create_collection] or
    [add] inside the [try], and the run returns [False] if the print of
    the failure line returns and raises that print's error if it does not;
    an error raised by [Settings] or [Client] reaches the caller. *)
Theorem unusable_directory_after_client (HH : StoreHandles V) (HS : DirStable V)
    (HD : DirFailure V) (script_dir : string) (w : world L) :
  let r := initialize_chromadb script_dir w in
  dir_usable V w (script_dir +:+ "/persist") = false →
  (∀ s c, CallClient s (Ret c) ∈ trace r →
          (Forall (λ ev, print_raised ev = None) (trace r) → result r = Ret false)
          ∧ (∀ line e', PrintRaised line e' ∈ trace r → result r = Raise e'))
  ∧ (∀ ev e, ev ∈ trace r → is_collection_call ev = false →
             call_raised ev = Some e → result r = Raise e).
Proof.
  cbn zeta. intros Hdir. split.
  - revert Hdir. run_cases; intros Hdir s' c' Hin; in_trace Hin; simplify_eq.
    all: try (pose proof (create_raises_Exception V HD _ _ _ _ _ _ HCreate); congruence).
    all: try (pose proof (settings_bound V HH _ _ _ _ _ _ HSettings) as Hs;
      pose proof (client_bound V HH _ _ _ _ HClient) as Hc;
      pose proof (handle_bound V HH _ _ _ _ _ _ HCreate) as [Hhd _];
      rewrite <- (settings_dir_stable V HS _ _ _ _ _ _ HSettings),
        <- (client_dir_stable V HS _ _ _ _ HClient),
        <- (create_dir_stable V HS _ _ _ _ _ _ HCreate),
        <- Hs, <- Hc, <- Hhd in Hdir;
      destruct (add_needs_dir V HD _ _ _ _ _ _ _ Hdir HAdd) as (e' & He' & Hexc);
      simplify_eq; congruence).
    all: split; [intros Hp; all_in_trace Hp; reflexivity
                |intros line e' Hp; in_trace Hp; by simplify_eq].
  - clear Hdir. run_cases; intros ev e' Hin Hc Hev; in_trace Hin; subst ev;
      cbn in Hc, Hev; by simplify_eq.
Qed.




End Lawful.

(** ** The statements at concrete runs *)

(** C1, as stated, fails.  Against a package that rejects the
    configuration when the client is built, the [ValueError] reaches the
    caller and nothing is printed. *)
Lemma client_failure_propagates :
  let r := @initialize_chromadb Scripted.lib "/srv/app" Scripted.client_rejected in
  result r = Raise Scripted.deprecated
  ∧ stdout (trace r) = []
  ∧ ¬ every_failure_caught.
Proof.
  cbn zeta. split; [reflexivity|]. split; [reflexivity|].
  intros H.
  destruct (H Scripted.lib "/srv/app" Scripted.client_rejected
              (CallClient (L:=Scripted.lib) tt (Raise Scripted.deprecated))
              Scripted.deprecated) as [Hres _].
  - apply list_elem_of_further, list_elem_of_here.
  - reflexivity.
  - reflexivity.
  - discriminate Hres.
Qed.

(** The scripted run in which the collection exists already: the
    [ValueError] of [create_collection] is caught and reported. *)
Lemma failure_caught_inside_try_witness :
  let r := @initialize_chromadb Scripted.lib "/srv/app" Scripted.collection_exists in
  let ev : event Scripted.lib :=
    CallCreateCollection (L:=Scripted.lib) tt "test_offline_collection"
      {[ "description" := "Test collection for offline verification" ]}
      (Raise Scripted.duplicate) in
  ev ∈ trace r
  ∧ call_raised ev = Some Scripted.duplicate
  ∧ is_collection_call ev = true
  ∧ exn_is_Exception Scripted.duplicate = true
  ∧ Forall (λ ev', print_raised ev' = None) (trace r)
  ∧ result r = Ret false
  ∧ last (stdout (trace r)) = Some (failure_line Scripted.duplicate).
Proof.
  cbn zeta.
  assert (Hin :
    CallCreateCollection (L:=Scripted.lib) tt "test_offline_collection"
      {[ "description" := "Test collection for offline verification" ]}
      (Raise Scripted.duplicate)
    ∈ trace (@initialize_chromadb Scripted.lib "/srv/app" Scripted.collection_exists)).
  { do 2 apply list_elem_of_further. apply list_elem_of_here. }
  assert (Hp : Forall (λ ev' : event Scripted.lib, print_raised ev' = None)
            (trace (@initialize_chromadb Scripted.lib "/srv/app"
                      Scripted.collection_exists))).
  { repeat (apply Forall_cons; split; [reflexivity|]). apply Forall_nil_2. }
  split; [exact Hin|]. do 3 (split; [reflexivity|]). split; [exact Hp|].
  exact (proj1 (proj1 (failure_caught_inside_try Scripted.lib "/srv/app" _ _ _
                         Hin eq_refl) eq_refl eq_refl) Hp).
Defined.

(** C2, as stated, fails.  Where the persistence directory is missing and
    cannot be made, building the client raises [PermissionError], and the
    run raises it on. *)
Lemma sealed_directory_raises :
  let r := @initialize_chromadb Mem.lib "/srv/app" Mem.sealed in
  dir_usable Mem.view Mem.sealed "/srv/app/persist" = false
  ∧ result r = Raise (PermissionError "/srv/app/persist")
  ∧ ¬ unusable_directory_gives_false.
Proof.
  cbn zeta. split; [reflexivity|]. split; [reflexivity|].
  intros H.
  specialize (H Mem.lib Mem.view MemLaws.handles MemLaws.dir_stable MemLaws.dir_failure
                "/srv/app" Mem.sealed eq_refl).
  discriminate H.
Qed.

(** The in-memory run on a read-only directory: the client is built, no
    collection can be made, and the run returns [False]. *)
Lemma unusable_directory_after_client_witness :
  let r := @initialize_chromadb Mem.lib "/srv/app" Mem.readonly in
  dir_usable Mem.view Mem.readonly "/srv/app/persist" = false
  ∧ CallClient (L:=Mem.lib) ("duckdb+parquet", "/srv/app/persist", false)
      (Ret "/srv/app/persist") ∈ trace r
  ∧ Forall (λ ev, print_raised ev = None) (trace r)
  ∧ result r = Ret false.
Proof.
  cbn zeta.
  assert (Hin :
    CallClient (L:=Mem.lib) ("duckdb+parquet", "/srv/app/persist", false)
      (Ret "/srv/app/persist")
    ∈ trace (@initialize_chromadb Mem.lib "/srv/app" Mem.readonly)).
  { apply list_elem_of_further, list_elem_of_here. }
  assert (Hp : Forall (λ ev : event Mem.lib, print_raised ev = None)
            (trace (@initialize_chromadb Mem.lib "/srv/app" Mem.readonly))).
  { repeat (apply Forall_cons; split; [reflexivity|]). apply Forall_nil_2. }
  split; [reflexivity|]. split; [exact Hin|]. split; [exact Hp|].
  exact (proj1 (proj1 (unusable_directory_after_client Mem.view MemLaws.handles
                         MemLaws.dir_stable MemLaws.dir_failure "/srv/app" Mem.readonly
                         eq_refl) _ _ Hin) Hp).
Defined.

(** C3, as stated, fails.  With standard output encoded in ASCII every
    library call returns and the response is as it should be, yet the
    print of the success line raises inside the [try], the print of the
    failure line raises inside the handler, and the run raises that
    [UnicodeEncodeError] with nothing printed.  Nor does the run return
    [True] when the calls return a response without documents. *)
Lemma ascii_stdout_spoils_success :
  let resp := Scripted.response ["This is a test document for offline ChromaDB"] in
  let r := @initialize_chromadb Scripted.lib "/srv/app" (Scripted.ascii_stdout resp) in
  let r' := @initialize_chromadb Scripted.lib "/srv/app" (Scripted.all_fine (PyDict ∅)) in
  Forall (λ ev, call_raised ev = None) (trace r)
  ∧ result r =
      Raise (Console.UnicodeEncodeError
               "'ascii' codec can't encode character '\u274c' in position 0: ordinal not in range(128)")
  ∧ stdout (trace r) = []
  ∧ Forall (λ ev, call_raised ev = None) (trace r')
  ∧ result r' = Ret false
  ∧ ¬ calls_succeed_gives_true.
Proof.
  cbn zeta.
  assert (Hcalls : Forall (λ ev : event Scripted.lib, call_raised ev = None)
            (trace (@initialize_chromadb Scripted.lib "/srv/app"
               (Scripted.ascii_stdout
                  (Scripted.response ["This is a test document for offline ChromaDB"]))))).
  { repeat (apply Forall_cons; split; [reflexivity|]). apply Forall_nil_2. }
  split; [exact Hcalls|]. split; [reflexivity|]. split; [reflexivity|].
  split; [repeat (apply Forall_cons; split; [reflexivity|]); apply Forall_nil_2|].
  split; [reflexivity|].
  intros H.
  destruct (H Scripted.lib "/srv/app"
              (Scripted.ascii_stdout
                 (Scripted.response ["This is a test document for offline ChromaDB"]))
              Hcalls) as [Hres _].
  discriminate Hres.
Qed.

(** The scripted run in which every call returns and the query matches
    the one document. *)
Lemma success_reports_count_witness :
  let documents := ["This is a test document for offline ChromaDB"] in
  let r := @initialize_chromadb Scripted.lib "/srv/app"
             (Scripted.all_fine (Scripted.response documents)) in
  Forall (λ ev, call_raised ev = None) (trace r)
  ∧ Forall (λ ev, print_raised ev = None) (trace r)
  ∧ CallQuery (L:=Scripted.lib) tt ["test document"] 1
      (Ret (Scripted.response documents)) ∈ trace r
  ∧ result r = Ret true
  ∧ stdout (trace r) =
      [ "✅ ChromaDB offline initialization successful";
        "✅ Test collection created with 1 documents" ].
Proof.
  cbn zeta.
  assert (Hall : Forall (λ ev : event Scripted.lib, call_raised ev = None)
            (trace (@initialize_chromadb Scripted.lib "/srv/app"
               (Scripted.all_fine
                  (Scripted.response ["This is a test document for offline ChromaDB"]))))).
  { repeat (apply Forall_cons; split; [reflexivity|]). apply Forall_nil_2. }
  assert (Hp : Forall (λ ev : event Scripted.lib, print_raised ev = None)
            (trace (@initialize_chromadb Scripted.lib "/srv/app"
               (Scripted.all_fine
                  (Scripted.response ["This is a test document for offline ChromaDB"]))))).
  { repeat (apply Forall_cons; split; [reflexivity|]). apply Forall_nil_2. }
  assert (Hin :
    CallQuery (L:=Scripted.lib) tt ["test document"] 1
      (Ret (Scripted.response ["This is a test document for offline ChromaDB"]))
    ∈ trace (@initialize_chromadb Scripted.lib "/srv/app"
               (Scripted.all_fine
                  (Scripted.response ["This is a test document for offline ChromaDB"])))).
  { do 4 apply list_elem_of_further. apply list_elem_of_here. }
  split; [exact Hall|]. split; [exact Hp|]. split; [exact Hin|].
  refine (success_reports_count Scripted.lib "/srv/app" _ tt ["test document"] 1 _
            [PyStr "This is a test document for offline ChromaDB"] [] Hall Hp Hin _).
  vm_compute. reflexivity.
Defined.

(** C9, as stated, fails.  With standard output filling up after the
    first line, the query returns a response without documents, the
    success line is printed, the count cannot be read, and the print of
    the failure line raises [OSError] inside the handler: the run raises
    instead of returning [False]. *)
Lemma full_stdout_spoils_report :
  let r := @initialize_chromadb Scripted.lib "/srv/app" (Scripted.stdout_fills (PyDict ∅)) in
  CallQuery (L:=Scripted.lib) tt ["test document"] 1 (Ret (PyDict ∅)) ∈ trace r
  ∧ result r = Raise (Console.OSError "[Errno 28] No space left on device")
  ∧ stdout (trace r) = [success_line]
  ∧ ¬ malformed_response_gives_false.
Proof.
  cbn zeta.
  assert (Hin :
    CallQuery (L:=Scripted.lib) tt ["test document"] 1 (Ret (PyDict ∅))
    ∈ trace (@initialize_chromadb Scripted.lib "/srv/app"
               (Scripted.stdout_fills (PyDict ∅)))).
  { do 4 apply list_elem_of_further. apply list_elem_of_here. }
  split; [exact Hin|]. split; [reflexivity|]. split; [reflexivity|].
  intros H.
  destruct (H Scripted.lib "/srv/app" (Scripted.stdout_fills (PyDict ∅)) tt
              ["test document"] 1 ∅ Hin (or_introl eq_refl)) as [Hres _].
  discriminate Hres.
Qed.

(** The scripted run whose query answers an empty mapping. *)
Lemma malformed_response_reported_witness :
  let r := @initialize_chromadb Scripted.lib "/srv/app" (Scripted.all_fine (PyDict ∅)) in
  CallQuery (L:=Scripted.lib) tt ["test document"] 1 (Ret (PyDict ∅)) ∈ trace r
  ∧ (∅ : gmap string pyval) !! "documents" = None
  ∧ Forall (λ ev, print_raised ev = None) (trace r)
  ∧ result r = Ret false
  ∧ stdout (trace r) =
      [ "✅ ChromaDB offline initialization successful";
        "❌ ChromaDB initialization failed: 'documents'" ].
Proof.
  cbn zeta.
  assert (Hin :
    CallQuery (L:=Scripted.lib) tt ["test document"] 1 (Ret (PyDict ∅))
    ∈ trace (@initialize_chromadb Scripted.lib "/srv/app" (Scripted.all_fine (PyDict ∅)))).
  { do 4 apply list_elem_of_further. apply list_elem_of_here. }
  assert (Hp : Forall (λ ev : event Scripted.lib, print_raised ev = None)
            (trace (@initialize_chromadb Scripted.lib "/srv/app"
                      (Scripted.all_fine (PyDict ∅))))).
  { repeat (apply Forall_cons; split; [reflexivity|]). apply Forall_nil_2. }
  split; [exact Hin|]. split; [reflexivity|]. split; [exact Hp|].
  exact (malformed_response_reported Scripted.lib "/srv/app" _ tt ["test document"] 1 ∅
           (KeyError (PyStr "documents")) Hin (or_introl (conj eq_refl eq_refl)) Hp).
Defined.

(** C7, as stated, fails.  In the scripted run in which the collection
    exists already, [create_collection] raises and the run performs no
    [add] and no [query]. *)
Lemma refused_collection_ends_run :
  let r := @initialize_chromadb Scripted.lib "/srv/app" Scripted.collection_exists in
  List.filter is_collection_call (trace r) =
    [ CallCreateCollection (L:=Scripted.lib) tt "test_offline_collection"
        {[ "description" := "Test collection for offline verification" ]}
        (Raise Scripted.duplicate) ]
  ∧ ¬ every_run_performs_all.
Proof.
  cbn zeta. split; [reflexivity|].
  intros H.
  destruct (H Scripted.lib "/srv/app" Scripted.collection_exists)
    as (c & h & o1 & o2 & o3 & Hops).
  discriminate Hops.
Qed.

(** The scripted run in which [create_collection] raises: its trace is
    the two constructors, the failing call and the failure line. *)
Lemma failure_short_circuits_witness :
  let t := trace (@initialize_chromadb Scripted.lib "/srv/app" Scripted.collection_exists) in
  let create : event Scripted.lib :=
    CallCreateCollection (L:=Scripted.lib) tt "test_offline_collection"
      {[ "description" := "Test collection for offline verification" ]}
      (Raise Scripted.duplicate) in
  let line : event Scripted.lib :=
    Printed ("❌ ChromaDB initialization failed: " +:+ exn_str Scripted.duplicate) in
  t = [CallSettings (L:=Scripted.lib) "duckdb+parquet" "/srv/app/persist" false (Ret tt);
       CallClient (L:=Scripted.lib) tt (Ret tt)] ++ create :: [line]
  ∧ call_raised create = Some Scripted.duplicate
  ∧ Forall (λ ev, is_call ev = false) [line].
Proof.
  cbn zeta. split; [reflexivity|]. split; [reflexivity|].
  exact (proj1 (failure_short_circuits Scripted.lib "/srv/app" Scripted.collection_exists)
           [CallSettings (L:=Scripted.lib) "duckdb+parquet" "/srv/app/persist" false (Ret tt);
            CallClient (L:=Scripted.lib) tt (Ret tt)]
           (CallCreateCollection (L:=Scripted.lib) tt "test_offline_collection"
              {[ "description" := "Test collection for offline verification" ]}
              (Raise Scripted.duplicate))
           [Printed ("❌ ChromaDB initialization failed: " +:+ exn_str Scripted.duplicate)]
           Scripted.duplicate eq_refl eq_refl).
Defined.

(** The in-memory run on an empty disk. *)
Lemma fresh_run_counts_one_witness :
  let r := @initialize_chromadb Mem.lib "/srv/app" Mem.fresh in
  colls Mem.view Mem.fresh "/srv/app/persist" = ∅
  ∧ result r = Ret true
  ∧ stdout (trace r) =
      [ "✅ ChromaDB offline initialization successful";
        "✅ Test collection created with 1 documents" ].
Proof.
  cbn zeta.
  assert (Hres : result (@initialize_chromadb Mem.lib "/srv/app" Mem.fresh) = Ret true)
    by (vm_compute; reflexivity).
  split; [reflexivity|]. split; [exact Hres|].
  exact (fresh_run_counts_one Mem.view MemLaws.handles MemLaws.frame MemLaws.effects
           "/srv/app" Mem.fresh eq_refl Hres).
Defined.



(** The in-memory run beside somebody else's collection, which is still
    there, unchanged, afterwards. *)
Lemma other_collections_untouched_witness :
  let r := @initialize_chromadb Mem.lib "/srv/app" Mem.shared in
  "notes" ≠ "test_offline_collection"
  ∧ result r = Ret true
  ∧ colls Mem.view (final r) "/srv/app/persist" !! "notes" = Some Mem.notes.
Proof.
  cbn zeta.
  assert (Hne : "notes" ≠ "test_offline_collection") by discriminate.
  split; [exact Hne|]. split; [vm_compute; reflexivity|].
  rewrite (proj2 (other_collections_untouched Mem.view MemLaws.handles MemLaws.frame
                    "/srv/app" Mem.shared) "/srv/app/persist" "notes" Hne).
  vm_compute. reflexivity.
Defined.

(** ** More of what a run does *)

Section Reports.

(** Reading the count raises nothing but the three built-in errors. *)
Lemma py_getitem_raises_class obj key e :
  py_getitem obj key = Raise e →
  exn_class e = "KeyError" ∨ exn_class e = "IndexError" ∨ exn_class e = "TypeError".
Proof.
  unfold py_getitem. intros H.
  repeat (case_match; simplify_eq); cbn; auto.
Qed.

Lemma first_group_len_raises_class r e :
  first_group_len r = Raise e →
  exn_class e = "KeyError" ∨ exn_class e = "IndexError" ∨ exn_class e = "TypeError".
Proof.
  unfold first_group_len. intros H.
  destruct (py_getitem r _) as [d|e1] eqn:H1.
  - destruct (py_getitem d _) as [g|e2] eqn:H2.
    + destruct g; cbn in H; simplify_eq; cbn; auto.
    + simplify_eq. by eapply py_getitem_raises_class.
  - simplify_eq. by eapply py_getitem_raises_class.
Qed.

(** The three lines are told apart by how they begin. *)
Lemma count_line_not_failure_line n e : count_line n ≠ failure_line e.
Proof. unfold count_line, failure_line. cbn. intros H. discriminate H. Qed.

Lemma success_line_not_failure_line e : success_line ≠ failure_line e.
Proof. unfold success_line, failure_line. cbn. intros H. discriminate H. Qed.

End Reports.

(** X1.  A run returns [True] only after all five library calls were made,
    in order, and returned, and the count was read off the response: its
    trace is those calls followed by the two success lines. *)
Theorem true_only_after_all_calls (L : ChromaLib) (script_dir : string) (w : world L) :
  let r := initialize_chromadb script_dir w in
  result r = Ret true →
  ∃ s c h resp n,
    trace r =
      [ CallSettings "duckdb+parquet" (script_dir +:+ "/persist") false (Ret s);
        CallClient s (Ret c);
        CallCreateCollection c "test_offline_collection"
          {[ "description" := "Test collection for offline verification" ]} (Ret h);
        CallAdd h ["This is a test document for offline ChromaDB"]
          [ {[ "source" := "offline_test" ]} ] ["test_doc_1"] (Ret tt);
        CallQuery h ["test document"] 1 (Ret resp);
        Printed success_line;
        Printed (count_line n) ]
    ∧ first_group_len resp = Ret n.
Proof.
  cbn zeta. run_cases; intros Hres; try discriminate Hres.
  eexists _, _, _, _, _. split; [reflexivity|eassumption].
Qed.

(** X2.  When a run raises, the error is the one raised by the last thing
    the run did.  That is either a library call, one of the two
    constructors before the [try] or a collection call whose error is not
    an [Exception], and then nothing was printed; or it is a [print], the
    one of the failure line inside the handler or one whose error is not
    an [Exception]. *)
Theorem escaping_error_origin (L : ChromaLib) (script_dir : string) (w : world L)
    (e : exn) :
  let r := initialize_chromadb script_dir w in
  result r = Raise e →
  ∃ t ev,
    trace r = t ++ [ev]
    ∧ ((call_raised ev = Some e
        ∧ (is_collection_call ev = false ∨ exn_is_Exception e = false)
        ∧ stdout (trace r) = [])
       ∨ (∃ line, ev = PrintRaised line e
                  ∧ ((∃ e0, line = failure_line e0) ∨ exn_is_Exception e = false))).
Proof.
  cbn zeta. run_cases; intros Hres; simplify_eq; try congruence;
    try (apply first_group_len_raises_Exception in HLen; congruence).
  all: first [ eexists [_; _; _; _; _; _; _], _; split; [reflexivity|]
             | eexists [_; _; _; _; _; _], _; split; [reflexivity|]
             | eexists [_; _; _; _; _], _; split; [reflexivity|]
             | eexists [_; _; _; _], _; split; [reflexivity|]
             | eexists [_; _; _], _; split; [reflexivity|]
             | eexists [_; _], _; split; [reflexivity|]
             | eexists [_], _; split; [reflexivity|]
             | eexists [], _; split; [reflexivity|] ].
  all: first [ left; split; [reflexivity|]; split; [|reflexivity];
               first [by left|by right]
             | right; eexists; split; [reflexivity|]; left; eexists; reflexivity
             | right; eexists; split; [reflexivity|]; by right ].
Qed.

(** X3.  What a run prints tells how it ended: it returns [True] exactly
    when its output is the success line and a count line, returns [False]
    exactly when the last line of its output is a failure line, and raises
    exactly when its output is empty or the success line alone. *)
Theorem report_matches_result (L : ChromaLib) (script_dir : string) (w : world L) :
  let r := initialize_chromadb script_dir w in
  let out := stdout (trace r) in
  (result r = Ret true ↔ ∃ n, out = [success_line; count_line n])
  ∧ (result r = Ret false ↔ ∃ e, last out = Some (failure_line e))
  ∧ ((∃ e, result r = Raise e) ↔ (out = [] ∨ out = [success_line])).
Proof.
  cbn zeta. run_cases; try congruence;
    try (apply first_group_len_raises_Exception in HLen; congruence).
  all: repeat split.
  all: try (intros H; discriminate H).
  all: try (intros [? H]; discriminate H).
  all: try (intros _; eexists; reflexivity).
  all: try (intros _; by (left + right)).
  all: try (intros [H|H]; discriminate H).
  all: try (intros [x H]; cbn in H; simplify_eq;
            first [ by destruct (count_line_not_failure_line _ _ H)
                  | by destruct (count_line_not_failure_line _ _ (eq_sym H))
                  | by destruct (success_line_not_failure_line _ H)
                  | by destruct (success_line_not_failure_line _ (eq_sym H)) ]).
  all: try (intros [H|H]; cbn in H; simplify_eq;
            first [ by destruct (success_line_not_failure_line _ H)
                  | by destruct (success_line_not_failure_line _ (eq_sym H)) ]).
Qed.

(** X4.  When the query has returned, the success line is out and the
    count cannot be read off the response, whatever it looks like: the
    error is a [KeyError], [IndexError] or [TypeError], caught by the
    [except] clause.  If the prints of the run return, the output is the
    success line followed by the failure line for that error, and the run
    returns [False]; if a print raises, it is the one of that failure
    line, its error reaches the caller, and the success line is all that
    was printed. *)
Theorem unreadable_count_reported (L : ChromaLib) (script_dir : string)
    (w : world L) (h : collection_t L) (texts : list string) (n : Z)
    (resp : pyval) (e : exn) :
  let r := initialize_chromadb script_dir w in
  CallQuery h texts n (Ret resp) ∈ trace r →
  Printed success_line ∈ trace r →
  first_group_len resp = Raise e →
  (exn_class e = "KeyError" ∨ exn_class e = "IndexError" ∨ exn_class e = "TypeError")
  ∧ (Forall (λ ev, print_raised ev = None) (trace r) →
       result r = Ret false ∧ stdout (trace r) = [success_line; failure_line e])
  ∧ (∀ line e', PrintRaised line e' ∈ trace r →
       line = failure_line e ∧ result r = Raise e' ∧ stdout (trace r) = [success_line]).
Proof.
  cbn zeta. intros Hin Hbanner He.
  split; [by eapply first_group_len_raises_class|].
  revert Hin Hbanner. run_cases; intros Hin Hbanner; in_trace Hin; simplify_eq;
    in_trace Hbanner; try congruence;
    try (apply first_group_len_raises_Exception in HLen; congruence).
  all: rewrite He in HLen; simplify_eq.
  all: split; [intros Hp; all_in_trace Hp; split; reflexivity
              |intros line e' Hp; in_trace Hp; by simplify_eq].
Qed.

(** ** Running again *)

Section Reruns.
Context {L : ChromaLib} (V : View L).

(** A run that finds the collection in the persistence directory does
    not return [True]. *)
Lemma rerun_not_true (HH : StoreHandles V) (HF : StoreFrame V)
    (HR : refuses_duplicates V) (script_dir : string) (w : world L) :
  is_Some (colls V w (script_dir +:+ "/persist") !! "test_offline_collection") →
  result (initialize_chromadb script_dir w) ≠ Ret true.
Proof.
  run_cases; intros Hcoll Hres; try discriminate Hres.
  pose proof (settings_bound V HH _ _ _ _ _ _ HSettings) as Hs.
  pose proof (client_bound V HH _ _ _ _ HClient) as Hc.
  rewrite <- (settings_frame V HF _ _ _ _ _ _ HSettings),
    <- (client_frame V HF _ _ _ _ HClient), <- Hs, <- Hc in Hcoll.
  destruct (HR c "test_offline_collection"
              {[ "description" := "Test collection for offline verification" ]}
              w1 Hcoll) as (e & w' & HCreate' & _).
  congruence.
Qed.

(** X6.  Against a library that refuses a second collection of the same
    name: when the persistence directory already holds
    ["test_offline_collection"], a run never returns [True] and never
    reaches [add] or [query].  If the client gets built,
    [create_collection] raises: the run then returns [False] with the
    failure line for the refusal as its whole output if the print of that
    line returns, and raises that print's error, with nothing printed, if
    it does not. *)
Theorem existing_collection_refused (HH : StoreHandles V) (HF : StoreFrame V)
    (HR : refuses_duplicates V) (script_dir : string) (w : world L) :
  let r := initialize_chromadb script_dir w in
  is_Some (colls V w (script_dir +:+ "/persist") !! "test_offline_collection") →
  result r ≠ Ret true
  ∧ Forall (λ ev, match ev with
                  | CallAdd _ _ _ _ _ | CallQuery _ _ _ _ => False
                  | _ => True
                  end) (trace r)
  ∧ ∀ s c, CallClient s (Ret c) ∈ trace r →
           ∃ e, exn_is_Exception e = true
                ∧ CallCreateCollection c "test_offline_collection"
                    {[ "description" := "Test collection for offline verification" ]}
                    (Raise e) ∈ trace r
                ∧ (Forall (λ ev, print_raised ev = None) (trace r) →
                     result r = Ret false ∧ stdout (trace r) = [failure_line e])
                ∧ (∀ line e', PrintRaised line e' ∈ trace r →
                     result r = Raise e' ∧ stdout (trace r) = []).
Proof.
  cbn zeta. intros Hcoll. unfold_run.
  destruct (lib_Settings L _ _ _ w) as [[s|e] w0] eqn:HSettings; cbn beta iota zeta.
  2:{ split; [done|]. split; [repeat (apply Forall_cons; split; [done|]); apply Forall_nil_2|].
      intros s c Hin. in_trace Hin. }
  pose proof (settings_bound V HH _ _ _ _ _ _ HSettings) as Hs.
  rewrite <- (settings_frame V HF _ _ _ _ _ _ HSettings), <- Hs in Hcoll.
  destruct (lib_Client L s w0) as [[c|e] w1] eqn:HClient; cbn beta iota zeta.
  2:{ split; [done|]. split; [repeat (apply Forall_cons; split; [done|]); apply Forall_nil_2|].
      intros s' c Hin. in_trace Hin. }
  pose proof (client_bound V HH _ _ _ _ HClient) as Hc.
  rewrite <- (client_frame V HF _ _ _ _ HClient), <- Hc in Hcoll.
  destruct (HR c "test_offline_collection"
              {[ "description" := "Test collection for offline verification" ]}
              w1 Hcoll) as (e & w2 & HCreate & Hexc).
  rewrite HCreate; cbn beta iota zeta. rewrite Hexc.
  repeat split_call; cbn.
  all: split; [done|].
  all: split; [repeat (apply Forall_cons; split; [done|]); apply Forall_nil_2|].
  all: intros s' c' Hin; in_trace Hin; simplify_eq; exists e.
  all: split; [exact Hexc|].
  all: split; [do 2 apply list_elem_of_further; apply list_elem_of_here|].
  all: split; [intros Hp; all_in_trace Hp; split; reflexivity
              |intros line e' Hp; in_trace Hp; by simplify_eq].
Qed.

(** X7.  Nothing is undone when a run fails.  Against a library that
    refuses duplicates and whose [add] removes no collection: once
    [create_collection] has returned in a run, however that run went on
    (the insertion or the query raised, the response was unreadable, or
    all went well), the collection is in the persistence directory
    afterwards and the next run there does not return [True]. *)
Theorem created_collection_blocks_rerun (HH : StoreHandles V) (HF : StoreFrame V)
    (HE : StoreEffects V) (HR : refuses_duplicates V) (HK : add_keeps_collection V)
    (script_dir : string) (w : world L) (c : client_t L)
    (md : gmap string string) (h : collection_t L) :
  let first := initialize_chromadb script_dir w in
  let second := initialize_chromadb script_dir (final first) in
  CallCreateCollection c "test_offline_collection" md (Ret h) ∈ trace first →
  is_Some (colls V (final first) (script_dir +:+ "/persist") !! "test_offline_collection")
  ∧ result second ≠ Ret true.
Proof.
  cbn zeta. intros Hin.
  assert (is_Some (colls V (final (initialize_chromadb script_dir w))
                     (script_dir +:+ "/persist") !! "test_offline_collection")) as Hcoll.
  { revert Hin. run_cases; intros Hin; in_trace Hin; simplify_eq.
    all: unfold final; cbn [fst snd].
    all: match goal with
         | HCr : lib_create_collection L ?c0 _ _ ?w1 = (Ret ?h0, ?w2) |- _ =>
             pose proof (settings_bound V HH _ _ _ _ _ _ HSettings) as Hs;
             pose proof (client_bound V HH _ _ _ _ HClient) as Hc;
             pose proof (handle_bound V HH _ _ _ _ _ _ HCr) as [Hhd Hhn];
             rewrite Hs in Hc;
             assert (is_Some (colls V w2 (handle_dir V h0) !! handle_name V h0)) as Hw2;
             [ rewrite Hhn, Hhd;
               destruct (colls V w1 (client_dir V c0) !! "test_offline_collection")
                 as [cd|] eqn:Hcd;
               [ destruct (HR c0 "test_offline_collection"
                             {[ "description" := "Test collection for offline verification" ]}
                             w1 (ltac:(by rewrite Hcd))) as (e' & w' & HCr' & _);
                 congruence
               | rewrite (create_new V HE _ _ _ _ _ _ HCr Hcd); by eexists ]
             | ]
         end.
    all: pose proof (HK _ _ _ _ _ _ _ HAdd Hw2) as Hw3.
    all: rewrite ?(query_frame V HF _ _ _ _ _ _ HQuery).
    all: by rewrite <- Hc, <- Hhd, <- Hhn. }
  split; [exact Hcoll|].
  exact (rerun_not_true HH HF HR script_dir _ Hcoll).
Qed.

End Reruns.

(** ** What a successful run leaves in the store *)

Section Stored.
Context {L : ChromaLib} (V : View L).

(** X8.  Against a library whose collections hold what was added to them:
    a run that finds no ["test_offline_collection"] in the persistence
    directory and returns [True] leaves that collection there with the
    description metadata and exactly one record, the test document under
    the id ["test_doc_1"] with its source metadata. *)
Theorem successful_run_stores_document (HH : StoreHandles V) (HF : StoreFrame V)
    (HE : StoreEffects V) (script_dir : string) (w : world L) :
  let r := initialize_chromadb script_dir w in
  colls V w (script_dir +:+ "/persist") !! "test_offline_collection" = None →
  result r = Ret true →
  colls V (final r) (script_dir +:+ "/persist") !! "test_offline_collection" =
    Some (CollData
            {[ "description" := "Test collection for offline verification" ]}
            [ ("test_doc_1", "This is a test document for offline ChromaDB",
               {[ "source" := "offline_test" ]}) ]).
Proof.
  cbn zeta. run_cases; intros Hnone Hres; try discriminate Hres.
  unfold final; cbn [fst snd].
  pose proof (settings_bound V HH _ _ _ _ _ _ HSettings) as Hs.
  pose proof (client_bound V HH _ _ _ _ HClient) as Hc.
  pose proof (handle_bound V HH _ _ _ _ _ _ HCreate) as [Hhd Hhn].
  rewrite Hs in Hc. rewrite Hc in Hhd.
  rewrite <- (settings_frame V HF _ _ _ _ _ _ HSettings),
    <- (client_frame V HF _ _ _ _ HClient), <- Hc in Hnone.
  pose proof (create_new V HE _ _ _ _ _ _ HCreate Hnone) as Hw2.
  rewrite Hc, <- Hhd, <- Hhn in Hw2.
  pose proof (add_docs V HE _ _ _ _ _ _ _ _ HAdd Hw2) as Hw3.
  rewrite (query_frame V HF _ _ _ _ _ _ HQuery), <- Hhd, <- Hhn.
  exact Hw3.
Qed.

End Stored.

(** ** The further properties at concrete runs *)

(** The in-memory store removes nothing on [add], and refuses
    duplicates. *)
Lemma mem_add_keeps : add_keeps_collection Mem.view.
Proof.
  intros [d name] docs metas ids w o w' H Hsome.
  cbn [lib_add Mem.lib] in H. unfold Mem.add in H.
  cbn [handle_dir handle_name Mem.view fst snd] in *.
  destruct (Mem.open_dir d w) as [dir|] eqn:Hd; [|by simplify_eq].
  destruct (Mem.d_colls dir !! name) as [cd|]; [|by simplify_eq].
  destruct (Mem.d_readonly dir); [by simplify_eq|].
  case_bool_decide; simplify_eq; [|done].
  erewrite MemLaws.colls_put_coll by done. rewrite decide_True by done. by eexists.
Qed.

Lemma mem_refuses_duplicates : refuses_duplicates Mem.view.
Proof. exact (create_refused Mem.view MemLaws.progress). Qed.

(** The scripted run in which every call returns. *)
Lemma true_only_after_all_calls_witness :
  let resp := Scripted.response ["This is a test document for offline ChromaDB"] in
  let r := @initialize_chromadb Scripted.lib "/srv/app" (Scripted.all_fine resp) in
  result r = Ret true
  ∧ ∃ s c h resp' n,
      trace r =
        [ CallSettings "duckdb+parquet" ("/srv/app" +:+ "/persist") false (Ret s);
          CallClient s (Ret c);
          CallCreateCollection c "test_offline_collection"
            {[ "description" := "Test collection for offline verification" ]} (Ret h);
          CallAdd h ["This is a test document for offline ChromaDB"]
            [ {[ "source" := "offline_test" ]} ] ["test_doc_1"] (Ret tt);
          CallQuery h ["test document"] 1 (Ret resp');
          Printed success_line;
          Printed (count_line n) ]
      ∧ first_group_len resp' = Ret n.
Proof.
  cbn zeta. split; [reflexivity|].
  exact (true_only_after_all_calls Scripted.lib "/srv/app"
           (Scripted.all_fine
              (Scripted.response ["This is a test document for offline ChromaDB"]))
           eq_refl).
Defined.

(** The scripted run with standard output filling up and a response
    without documents: the error that escapes is the [OSError] of the
    last print, that of the failure line. *)
Lemma escaping_error_origin_witness :
  let r := @initialize_chromadb Scripted.lib "/srv/app" (Scripted.stdout_fills (PyDict ∅)) in
  let e := Console.OSError "[Errno 28] No space left on device" in
  result r = Raise e
  ∧ ∃ t ev,
      trace r = t ++ [ev]
      ∧ ((call_raised ev = Some e
          ∧ (is_collection_call ev = false ∨ exn_is_Exception e = false)
          ∧ stdout (trace r) = [])
         ∨ (∃ line, ev = PrintRaised line e
                    ∧ ((∃ e0, line = failure_line e0) ∨ exn_is_Exception e = false))).
Proof.
  cbn zeta. split; [reflexivity|].
  exact (escaping_error_origin Scripted.lib "/srv/app" (Scripted.stdout_fills (PyDict ∅))
           (Console.OSError "[Errno 28] No space left on device") eq_refl).
Defined.

(** The scripted run in which the collection exists: the last line is the
    failure line, so the run returned [False]. *)
Lemma report_matches_result_witness :
  let r := @initialize_chromadb Scripted.lib "/srv/app" Scripted.collection_exists in
  last (stdout (trace r)) = Some (failure_line Scripted.duplicate)
  ∧ result r = Ret false.
Proof.
  cbn zeta. split; [reflexivity|].
  apply (proj1 (proj2 (report_matches_result Scripted.lib "/srv/app"
                         Scripted.collection_exists))).
  exists Scripted.duplicate. reflexivity.
Defined.

(** The scripted run whose query answers without documents. *)
Lemma unreadable_count_reported_witness :
  let resp := PyDict {[ "documents" := PyNone ]} in
  let e := TypeError "'NoneType' object is not subscriptable" in
  let r := @initialize_chromadb Scripted.lib "/srv/app" (Scripted.all_fine resp) in
  CallQuery (L:=Scripted.lib) tt ["test document"] 1 (Ret resp) ∈ trace r
  ∧ Printed success_line ∈ trace r
  ∧ first_group_len resp = Raise e
  ∧ Forall (λ ev, print_raised ev = None) (trace r)
  ∧ result r = Ret false
  ∧ stdout (trace r) = [success_line; failure_line e].
Proof.
  cbn zeta.
  assert (Hin :
    CallQuery (L:=Scripted.lib) tt ["test document"] 1
      (Ret (PyDict {[ "documents" := PyNone ]}))
    ∈ trace (@initialize_chromadb Scripted.lib "/srv/app"
               (Scripted.all_fine (PyDict {[ "documents" := PyNone ]})))).
  { do 4 apply list_elem_of_further. apply list_elem_of_here. }
  assert (Hbanner :
    Printed (L:=Scripted.lib) success_line
    ∈ trace (@initialize_chromadb Scripted.lib "/srv/app"
               (Scripted.all_fine (PyDict {[ "documents" := PyNone ]})))).
  { do 5 apply list_elem_of_further. apply list_elem_of_here. }
  assert (Hlen :
    first_group_len (PyDict {[ "documents" := PyNone ]})
    = Raise (TypeError "'NoneType' object is not subscriptable"))
    by reflexivity.
  assert (Hp : Forall (λ ev : event Scripted.lib, print_raised ev = None)
            (trace (@initialize_chromadb Scripted.lib "/srv/app"
                      (Scripted.all_fine (PyDict {[ "documents" := PyNone ]}))))).
  { repeat (apply Forall_cons; split; [reflexivity|]). apply Forall_nil_2. }
  split; [exact Hin|]. split; [exact Hbanner|]. split; [exact Hlen|].
  split; [exact Hp|].
  exact (proj1 (proj2 (unreadable_count_reported Scripted.lib "/srv/app" _ tt
                         ["test document"] 1 _ _ Hin Hbanner Hlen)) Hp).
Defined.

(** The in-memory run on a directory that holds the collection. *)
Lemma existing_collection_refused_witness :
  let r := @initialize_chromadb Mem.lib "/srv/app" Mem.initialized in
  is_Some (colls Mem.view Mem.initialized "/srv/app/persist" !! "test_offline_collection")
  ∧ result r ≠ Ret true.
Proof.
  cbn zeta.
  assert (Hcoll :
    is_Some (colls Mem.view Mem.initialized "/srv/app/persist"
               !! "test_offline_collection"))
    by (by eexists).
  split; [exact Hcoll|].
  exact (proj1 (existing_collection_refused Mem.view MemLaws.handles MemLaws.frame
                  mem_refuses_duplicates "/srv/app" _ Hcoll)).
Defined.

(** Two in-memory runs in a row from an empty disk, with standard output
    encoded in ASCII: the first run creates the collection and then fails,
    its lines not being printable; the collection stays, and the second
    run does not return [True]. *)
Lemma created_collection_blocks_rerun_witness :
  let first := @initialize_chromadb Mem.lib "/srv/app" Mem.fresh_ascii in
  let second := @initialize_chromadb Mem.lib "/srv/app" (final first) in
  CallCreateCollection (L:=Mem.lib) "/srv/app/persist" "test_offline_collection"
    {[ "description" := "Test collection for offline verification" ]}
    (Ret ("/srv/app/persist", "test_offline_collection")) ∈ trace first
  ∧ (∃ e, result first = Raise e)
  ∧ is_Some (colls Mem.view (final first) "/srv/app/persist" !! "test_offline_collection")
  ∧ result second ≠ Ret true.
Proof.
  cbn zeta.
  assert (Hin :
    CallCreateCollection (L:=Mem.lib) "/srv/app/persist" "test_offline_collection"
      {[ "description" := "Test collection for offline verification" ]}
      (Ret ("/srv/app/persist", "test_offline_collection"))
    ∈ trace (@initialize_chromadb Mem.lib "/srv/app" Mem.fresh_ascii)).
  { do 2 apply list_elem_of_further. apply list_elem_of_here. }
  split; [exact Hin|].
  split; [eexists; vm_compute; reflexivity|].
  exact (created_collection_blocks_rerun Mem.view MemLaws.handles MemLaws.frame
           MemLaws.effects mem_refuses_duplicates mem_add_keeps
           "/srv/app" Mem.fresh_ascii _ _ _ Hin).
Defined.

(** The in-memory run on an empty disk, and what is on the disk after. *)
Lemma successful_run_stores_document_witness :
  let r := @initialize_chromadb Mem.lib "/srv/app" Mem.fresh in
  colls Mem.view Mem.fresh "/srv/app/persist" !! "test_offline_collection" = None
  ∧ result r = Ret true
  ∧ colls Mem.view (final r) "/srv/app/persist" !! "test_offline_collection" =
      Some (CollData
              {[ "description" := "Test collection for offline verification" ]}
              [ ("test_doc_1", "This is a test document for offline ChromaDB",
                 {[ "source" := "offline_test" ]}) ]).
Proof.
  cbn zeta.
  assert (Hres : result (@initialize_chromadb Mem.lib "/srv/app" Mem.fresh) = Ret true)
    by (vm_compute; reflexivity).
  split; [reflexivity|]. split; [exact Hres|].
  exact (successful_run_stores_document Mem.view MemLaws.handles MemLaws.frame
           MemLaws.effects "/srv/app" Mem.fresh eq_refl Hres).
Defined.
